(** * Decoding plots of mne.viz.decoding: plot_gat_matrix and plot_gat_diagonal

    A shallow embedding of [mne/viz/decoding.py].  The two functions read a
    GeneralizationAcrossTime object and issue matplotlib calls, so they are
    embedded in a small monad that threads the list of plotting calls made
    so far and propagates Python exceptions.

    Numbers: NumPy's float64 values are modelled by exact rationals [Q]
    (no rounding, no NaN).  Scores are only copied and compared, never
    computed with, so a plotted score is literally the stored one.  Times
    are subtracted on lines 152 and 154; float64 does this without rounding
    on the times called [whole] below, and the statements that depend on
    the outcome of these subtractions on arbitrary times are made for whole
    times.

    Plotting calls: a call is recorded in the trace and taken to return.
    What matplotlib checks in its arguments is not modelled, so a statement
    about calls says what the code hands to matplotlib and in which order,
    and which calls it never makes. *)

From Stdlib Require Import QArith Qabs Lia.
From stdpp Require Import strings list.

Local Open Scope string_scope.
Local Open Scope list_scope.

(** ** Python values and exceptions *)

Inductive exn : Type :=
| RuntimeError (msg : string)
| AttributeError (attr : string)
| KeyError (key : string)
| IndexError
| ValueError (msg : string).

Inductive result (A : Type) : Type :=
| Ok (a : A)
| Raise (e : exn).
Arguments Ok {A} a.
Arguments Raise {A} e.

Definition rbind {A B} (r : result A) (f : A -> result B) : result B :=
  match r with
  | Ok a => f a
  | Raise e => Raise e
  end.

(** A dict with the keys ['times_'] and ['step'], either of which may be
    absent; [A] is the type stored under ['times_']. *)
Record times_dict (A : Type) : Type := TimesDict {
  times_ : option A;
  step : option Q
}.
Arguments TimesDict {A} times_ step.
Arguments times_ {A} t.
Arguments step {A} t.

(** The attributes of the GeneralizationAcrossTime object the two functions
    read; [None] is an attribute the object does not have.  [scorer_] holds
    the scorer's [repr]. *)
Record GAT : Type := MkGAT {
  scores_ : option (list (list Q));
  train_times : option (times_dict (list Q));
  test_times_ : option (times_dict (list (list Q)));
  scorer_ : option string
}.

Definition getattr {A} (name : string) (o : option A) : result A :=
  match o with
  | Some a => Ok a
  | None => Raise (AttributeError name)
  end.

Definition getkey {A} (key : string) (o : option A) : result A :=
  match o with
  | Some a => Ok a
  | None => Raise (KeyError key)
  end.

(** [l[i]] for a Python sequence: a negative index counts from the end,
    an index out of range raises IndexError. *)
Definition getitem {A} (l : list A) (i : Z) : result A :=
  let k := if (i <? 0)%Z then (i + Z.of_nat (length l))%Z else i in
  if (k <? 0)%Z then Raise IndexError
  else match l !! Z.to_nat k with
       | Some a => Ok a
       | None => Raise IndexError
       end.

(** [a[i] = v] on a one-dimensional array, for [i >= 0]. *)
Definition setitem {A} (a : list A) (i : nat) (v : A) : result (list A) :=
  if (i <? length a)%nat then Ok (<[i := v]> a) else Raise IndexError.

(** [l[:n]] and [l[n:]]. *)
Definition slice_to {A} (n : nat) (l : list A) : list A := take n l.
Definition slice_from {A} (n : nat) (l : list A) : list A := drop n l.

(** ['needle' in hay] on strings. *)
Fixpoint contains (needle hay : string) : bool :=
  if String.prefix needle hay then true
  else match hay with
       | EmptyString => false
       | String _ rest => contains needle rest
       end.

(** ** The NumPy functions used *)

Definition Qlt_bool (x y : Q) : bool := negb (Qle_bool y x).

Definition min_of (x : Q) (r : list Q) : Q :=
  fold_left (fun m y => if Qlt_bool y m then y else m) r x.

Definition max_of (x : Q) (r : list Q) : Q :=
  fold_left (fun m y => if Qlt_bool m y then y else m) r x.

Definition zero_size : exn :=
  ValueError "zero-size array to reduction operation which has no identity".

(** [np.min] and [np.max] of a one-dimensional array. *)
Definition np_min1 (v : list Q) : result Q :=
  match v with
  | [] => Raise zero_size
  | x :: r => Ok (min_of x r)
  end.

Definition np_max1 (v : list Q) : result Q :=
  match v with
  | [] => Raise zero_size
  | x :: r => Ok (max_of x r)
  end.

(** A list of rows converts to a two-dimensional array when all rows have
    the same length; NumPy refuses rows of different lengths. *)
Definition rectangular (m : list (list Q)) : bool :=
  match m with
  | [] => true
  | r :: rest => forallb (fun r' => (length r' =? length r)%nat) rest
  end.

Definition np_asarray2 (m : list (list Q)) : result (list Q) :=
  if rectangular m then Ok (concat m)
  else Raise (ValueError "inhomogeneous shape").

(** [np.min] and [np.max] of a list of rows: the reduction runs over all
    entries. *)
Definition np_min2 (m : list (list Q)) : result Q :=
  rbind (np_asarray2 m) np_min1.

Definition np_max2 (m : list (list Q)) : result Q :=
  rbind (np_asarray2 m) np_max1.

(** [argmin] of a one-dimensional array: the first index of a least entry. *)
Fixpoint argmin_from (best : nat) (best_v : Q) (k : nat) (l : list Q) : nat :=
  match l with
  | [] => best
  | x :: r =>
      if Qlt_bool x best_v then argmin_from k x (S k) r
      else argmin_from best best_v (S k) r
  end.

Definition argmin (v : list Q) : nat :=
  match v with
  | [] => 0%nat
  | x :: r => argmin_from 0 x 1 r
  end.

Definition np_argmin (v : list Q) : result nat :=
  match v with
  | [] => Raise (ValueError "attempt to get argmin of an empty sequence")
  | _ :: _ => Ok (argmin v)
  end.

(** [np.abs(t - T)], elementwise. *)
Definition abs_diff (t : list Q) (T : Q) : list Q :=
  map (fun x => Qabs (x - T)) t.

(** [np.unique]: the sorted distinct values. *)
Fixpoint insert_unique (n : nat) (l : list nat) : list nat :=
  match l with
  | [] => [n]
  | x :: r =>
      if (n <? x)%nat then n :: x :: r
      else if (n =? x)%nat then x :: r
      else x :: insert_unique n r
  end.

Definition np_unique (l : list nat) : list nat :=
  foldr insert_unique [] l.

(** [np.all] of a boolean array. *)
Definition np_all (l : list bool) : bool := forallb (fun b => b) l.

Definition np_zeros (n : nat) : list Q := replicate n 0%Q.

(** ** Plotting calls and the plotting monad *)

(** What [ax.plot] receives as y data: the list of score rows itself, or the
    one-dimensional array built by the nearest-neighbour search. *)
Inductive ydata : Type :=
| YMatrix (m : list (list Q))
| YVector (v : list Q).

Definition np_min_y (y : ydata) : result Q :=
  match y with
  | YMatrix m => np_min2 m
  | YVector v => np_min1 v
  end.

Definition np_max_y (y : ydata) : result Q :=
  match y with
  | YMatrix m => np_max2 m
  | YVector v => np_max1 v
  end.

(** The matplotlib calls of the two functions, with the arguments that vary. *)
Inductive call : Type :=
| Subplots (nrows ncols : nat)
| Imshow (data : list (list Q)) (extent : list Q) (vmin vmax : Q) (cmap : string)
| Plot (x : list Q) (y : ydata) (color label : string)
| Axvline (x : Q)
| Axhline (y : Q)
| SetXlabel (s : string)
| SetYlabel (s : string)
| SetTitle (s : string)
| SetXlim (l : list Q)
| SetYlim (l : list Q)
| Colorbar
| Legend
| Show.

(** The axes drawn on: the caller's, or the ones [plt.subplots] made. *)
Inductive axes : Type :=
| NewAxes
| CallerAxes (id : nat).

Inductive figure : Type :=
| FigureOf (a : axes).

Definition trace : Type := list call.

Definition M (A : Type) : Type := trace -> result A * trace.

Definition ret {A} (a : A) : M A := fun tr => (Ok a, tr).

Definition bind {A B} (m : M A) (f : A -> M B) : M B :=
  fun tr =>
    match m tr with
    | (Ok a, tr') => f a tr'
    | (Raise e, tr') => (Raise e, tr')
    end.

Definition raise {A} (e : exn) : M A := fun tr => (Raise e, tr).

Definition lift {A} (r : result A) : M A := fun tr => (r, tr).

Definition draw (c : call) : M unit := fun tr => (Ok tt, tr ++ [c]).

Definition when (b : bool) (m : M unit) : M unit :=
  if b then m else ret tt.

Declare Scope py_scope.
Delimit Scope py_scope with py.
Notation "x <- m ;; k" := (bind m (fun x => k))
  (at level 100, m at next level, right associativity) : py_scope.
Notation "m ;; k" := (bind m (fun _ => k))
  (at level 100, right associativity) : py_scope.
Notation "x <~ r ;; k" := (rbind r (fun x => k))
  (at level 100, r at next level, right associativity) : py_scope.

(** A call from a fresh session: no plotting call made yet. *)
Definition run {A} (m : M A) : result A * trace := m [].

Definition not_scored : exn :=
  RuntimeError "Please score your data before trying to plot scores".

Local Open Scope py_scope.

(** ** plot_gat_matrix *)

(** Lines 71-73: the default temporal boundaries. *)
Definition default_tlim (gat : GAT) : result (list Q) :=
  tt_dict <~ getattr "train_times" (train_times gat) ;;
  tt_times <~ getkey "times_" (times_ tt_dict) ;;
  tn_dict <~ getattr "test_times_" (test_times_ gat) ;;
  tn_times <~ getkey "times_" (times_ tn_dict) ;;
  tn_first <~ getitem tn_times 0 ;;
  x0 <~ getitem tn_first 0 ;;
  tn_last <~ getitem tn_times (-1) ;;
  x1 <~ getitem tn_last (-1) ;;
  y0 <~ getitem tt_times 0 ;;
  y1 <~ getitem tt_times (-1) ;;
  Ok [x0; x1; y0; y1].

Definition plot_gat_matrix (gat : GAT) (title : option string)
    (vmin vmax : option Q) (tlim : option (list Q)) (ax : option nat)
    (cmap : string) (show colorbar xlabel ylabel : bool) : M figure :=
  match scores_ gat with
  | None => raise not_scored
  | Some scores =>
      ax <- match ax with
            | None => draw (Subplots 1 1) ;; ret NewAxes
            | Some id => ret (CallerAxes id)
            end ;;
      vmin <- match vmin with
              | None => lift (np_min2 scores)
              | Some v => ret v
              end ;;
      vmax <- match vmax with
              | None => lift (np_max2 scores)
              | Some v => ret v
              end ;;
      tlim <- match tlim with
              | None => lift (default_tlim gat)
              | Some l => ret l
              end ;;
      draw (Imshow scores tlim vmin vmax cmap) ;;
      when xlabel (draw (SetXlabel "Testing Time (s)")) ;;
      when ylabel (draw (SetYlabel "Training Time (s)")) ;;
      match title with
      | Some s => draw (SetTitle s)
      | None => ret tt
      end ;;
      draw (Axvline 0) ;;
      draw (Axhline 0) ;;
      draw (SetXlim (slice_to 2 tlim)) ;;
      draw (SetYlim (slice_from 2 tlim)) ;;
      when colorbar (draw Colorbar) ;;
      when show (draw Show) ;;
      ret (FigureOf ax)
  end.

(** ** plot_gat_diagonal *)

(** Line 154: is the testing time [tj] accepted for the training time [T]
    with the step [st]? *)
Definition accepted (T tj st : Q) : bool := Qle_bool (T - tj) st.

(** Lines 152-155: one testing-time sequence [t] scanned for the training
    time [T] at index [i]; [scores] is the array being filled. *)
Definition scan_one (gat : GAT) (gat_scores : list (list Q)) (i : nat)
    (T : Q) (t : list Q) (scores : list Q) : result (list Q) :=
  j <~ np_argmin (abs_diff t T) ;;
  tj <~ getitem t (Z.of_nat j) ;;
  tt_dict <~ getattr "train_times" (train_times gat) ;;
  st <~ getkey "step" (step tt_dict) ;;
  if accepted T tj st then
    row <~ getitem gat_scores (Z.of_nat i) ;;
    v <~ getitem row (Z.of_nat j) ;;
    setitem scores i v
  else Ok scores.

(** Lines 150-155: the loop over the testing-time sequences. *)
Fixpoint scan_tests (gat : GAT) (gat_scores : list (list Q)) (i : nat)
    (T : Q) (tn_times : list (list Q)) (scores : list Q) : result (list Q) :=
  match tn_times with
  | [] => Ok scores
  | t :: rest =>
      scores' <~ scan_one gat gat_scores i T t scores ;;
      scan_tests gat gat_scores i T rest scores'
  end.

(** Lines 149-155: the loop over [enumerate] of the training times, from
    index [i] on. *)
Fixpoint scan_trains (gat : GAT) (gat_scores : list (list Q)) (i : nat)
    (tt_times : list Q) (scores : list Q) : result (list Q) :=
  match tt_times with
  | [] => Ok scores
  | T :: rest =>
      tn_dict <~ getattr "test_times_" (test_times_ gat) ;;
      tn_times <~ getkey "times_" (times_ tn_dict) ;;
      scores' <~ scan_tests gat gat_scores i T tn_times scores ;;
      scan_trains gat gat_scores (S i) rest scores'
  end.

(** Lines 148-155: the scores at identical training and testing times. *)
Definition diagonal_scores (gat : GAT) (gat_scores : list (list Q))
    : result (list Q) :=
  let scores := np_zeros (length gat_scores) in
  tt_dict <~ getattr "train_times" (train_times gat) ;;
  tt_times <~ getkey "times_" (times_ tt_dict) ;;
  scan_trains gat gat_scores 0 tt_times scores.

(** Line 143: is every testing-time sequence of length one? *)
Definition is_diagonal (tn_times : list (list Q)) : bool :=
  np_all (map (fun n => (n =? 1)%nat) (np_unique (map length tn_times))).

Definition plot_gat_diagonal (gat : GAT) (title : option string)
    (xmin xmax ymin ymax : option Q) (ax : option nat) (show : bool)
    (color : string) (xlabel ylabel legend : bool) : M figure :=
  match scores_ gat with
  | None => raise not_scored
  | Some gat_scores =>
      ax <- match ax with
            | None => draw (Subplots 1 1) ;; ret NewAxes
            | Some id => ret (CallerAxes id)
            end ;;
      tn_dict <- lift (getattr "test_times_" (test_times_ gat)) ;;
      tn_times <- lift (getkey "times_" (times_ tn_dict)) ;;
      scores <- (if is_diagonal tn_times then ret (YMatrix gat_scores)
                 else v <- lift (diagonal_scores gat gat_scores) ;;
                      ret (YVector v)) ;;
      tt_dict <- lift (getattr "train_times" (train_times gat)) ;;
      tt_times <- lift (getkey "times_" (times_ tt_dict)) ;;
      draw (Plot tt_times scores color "Classif. score") ;;
      draw (Axhline 0.5) ;;
      match title with
      | Some s => draw (SetTitle s)
      | None => ret tt
      end ;;
      ymin <- match ymin with
              | None => lift (np_min_y scores)
              | Some v => ret v
              end ;;
      ymax <- match ymax with
              | None => lift (np_max_y scores)
              | Some v => ret v
              end ;;
      draw (SetYlim [ymin; ymax]) ;;
      match xmin, xmax with
      | Some a, Some b => draw (SetXlim [a; b])
      | _, _ => ret tt
      end ;;
      when xlabel (draw (SetXlabel "Time (s)")) ;;
      when ylabel
        (scorer <- lift (getattr "scorer_" (scorer_ gat)) ;;
         draw (SetYlabel ("Classif. score ("
                          +:+ (if contains "roc" scorer then "AUC" else "%")
                          +:+ ")"))) ;;
      when legend (draw Legend) ;;
      when show (draw Show) ;;
      ret (FigureOf ax)
  end.

(** ** Observations on traces and on the nearest-neighbour search *)

(** The y data of the [ax.plot] calls of a trace, in order. *)
Definition plot_of (c : call) : option ydata :=
  match c with
  | Plot _ y _ _ => Some y
  | _ => None
  end.

Definition plotted (tr : trace) : list ydata := omap plot_of tr.

(** The [ax.imshow] calls of a trace, in order. *)
Definition imshow_of (c : call) : option call :=
  match c with
  | Imshow _ _ _ _ _ => Some c
  | _ => None
  end.

Definition shown (tr : trace) : list call := omap imshow_of tr.

(** The trace once the axes are there: [plt.subplots] is called when the
    caller gave none. *)
Definition with_axes (ax : option nat) (tr : trace) : trace :=
  match ax with
  | None => tr ++ [Subplots 1 1]
  | Some _ => tr
  end.

(** Lines 64-73: the color limits and temporal boundaries handed to
    [ax.imshow]. *)
Definition matrix_args (gat : GAT) (scores : list (list Q))
    (vmin vmax : option Q) (tlim : option (list Q))
    : result (Q * Q * list Q) :=
  lo <~ match vmin with
        | None => np_min2 scores
        | Some v => Ok v
        end ;;
  hi <~ match vmax with
        | None => np_max2 scores
        | Some v => Ok v
        end ;;
  ext <~ match tlim with
         | None => default_tlim gat
         | Some l => Ok l
         end ;;
  Ok (lo, hi, ext).

(** The calls of plot_gat_matrix from [ax.imshow] on. *)
Definition matrix_calls (scores : list (list Q)) (lo hi : Q)
    (ext : list Q) (title : option string) (cmap : string)
    (show colorbar xlabel ylabel : bool) : trace :=
  [Imshow scores ext lo hi cmap]
  ++ (if xlabel then [SetXlabel "Testing Time (s)"] else [])
  ++ (if ylabel then [SetYlabel "Training Time (s)"] else [])
  ++ match title with
     | Some s => [SetTitle s]
     | None => []
     end
  ++ [Axvline 0; Axhline 0; SetXlim (slice_to 2 ext);
      SetYlim (slice_from 2 ext)]
  ++ (if colorbar then [Colorbar] else [])
  ++ (if show then [Show] else []).

(** Lines 143-156: the scores and the training times handed to [ax.plot]. *)
Definition diagonal_data (gat : GAT) (gat_scores : list (list Q))
    : result (ydata * list Q) :=
  tn_dict <~ getattr "test_times_" (test_times_ gat) ;;
  tn_times <~ getkey "times_" (times_ tn_dict) ;;
  scores <~ (if is_diagonal tn_times then Ok (YMatrix gat_scores)
             else v <~ diagonal_scores gat gat_scores ;; Ok (YVector v)) ;;
  tt_dict <~ getattr "train_times" (train_times gat) ;;
  tt_times <~ getkey "times_" (times_ tt_dict) ;;
  Ok (scores, tt_times).

(** A computation that makes no call observed by [f]. *)
Definition quiet {A X} (f : call -> option X) (m : M A) : Prop :=
  forall tr, omap f (m tr).2 = omap f tr.

(** Line 152: the index of the testing time of [t] closest to [T]. *)
Definition nearest (t : list Q) (T : Q) : nat := argmin (abs_diff t T).

(** The entry of the array under construction at the index of [T] after one
    testing-time sequence, and after all of them; [row] is the score row of
    that index; an entry that cannot be read counts as 0 here. *)
Definition cell_step (row : list Q) (T st : Q) (cur : Q) (t : list Q) : Q :=
  let j := nearest t T in
  if accepted T (nth j t 0%Q) st then nth j row 0%Q else cur.

Definition cell (row : list Q) (T st : Q) (tn_times : list (list Q))
    (cur : Q) : Q :=
  fold_left (cell_step row T st) tn_times cur.

(** Every read of lines 152-155 is in range for the sequence [t]: it is not
    empty, and no score row is shorter. *)
Definition readable (s : list (list Q)) (t : list Q) : Prop :=
  t <> [] /\ Forall (fun row => (length t <= length row)%nat) s.

(** Least and greatest entries. *)
Definition is_least (m : Q) (l : list Q) : Prop :=
  m ∈ l /\ Forall (fun x => (m <= x)%Q) l.

Definition is_greatest (m : Q) (l : list Q) : Prop :=
  m ∈ l /\ Forall (fun x => (x <= m)%Q) l.

(** A bound given by the caller, or else computed. *)
Definition bound_is (given : option Q) (computed : result Q) (b : Q) : Prop :=
  given = Some b \/ (given = None /\ computed = Ok b).





(** ** Inputs used below *)

(** The example of the specification. *)
Definition example_scores : list (list Q) := [[0.6; 0.7]; [0.5; 0.9]]%Q.

Definition example_gat (st : Q) : GAT :=
  MkGAT (Some example_scores)
        (Some (TimesDict (Some [0; 1]%Q) (Some st)))
        (Some (TimesDict (Some [[0; 1]; [0; 1]]%Q) None))
        (Some "accuracy_score").

(** Time descriptors, but no scores. *)
Definition unscored_gat : GAT :=
  MkGAT None
        (Some (TimesDict (Some [0; 1]%Q) (Some 1%Q)))
        (Some (TimesDict (Some [[0; 1]; [0; 1]]%Q) None))
        (Some "accuracy_score").

(** A column of scores; there is no step and no scorer to read. *)
Definition column_gat : GAT :=
  MkGAT (Some [[0.6]; [0.9]]%Q)
        (Some (TimesDict (Some [0; 1]%Q) None))
        (Some (TimesDict (Some [[0]; [1]]%Q) None))
        None.

(** Testing-time sequences that differ from one training time to the
    next. *)
Definition ragged_gat : GAT :=
  MkGAT (Some example_scores)
        (Some (TimesDict (Some [0; 1]%Q) (Some 1%Q)))
        (Some (TimesDict (Some [[0; 1]; [5; 6; 7]]%Q) None))
        (Some "accuracy_score").

(** Each training time is tested on a window of three testing times that
    moves with it. *)
Definition window_scores : list (list Q) :=
  [[0.1; 0.2; 0.3]; [0.4; 0.5; 0.6]]%Q.

Definition window_gat : GAT :=
  MkGAT (Some window_scores)
        (Some (TimesDict (Some [0; 1]%Q) (Some 1%Q)))
        (Some (TimesDict (Some [[-1; 0; 1]; [0; 1; 2]]%Q) None))
        (Some "accuracy_score").

(** All testing times lie at least four steps after the training times. *)
Definition late_gat : GAT :=
  MkGAT (Some example_scores)
        (Some (TimesDict (Some [0; 1]%Q) (Some 1%Q)))
        (Some (TimesDict (Some [[5; 6]; [5; 6]]%Q) None))
        (Some "accuracy_score").



(** ** Further observations on plot_gat_diagonal *)

(** Lines 156-177: plot_gat_diagonal from [ax.plot] on, [ax] being the axes
    drawn on and [scores] the data of lines 143-155. *)
Definition diagonal_finish (gat : GAT) (title : option string)
    (xmin xmax ymin ymax : option Q) (ax : axes) (show : bool)
    (color : string) (xlabel ylabel legend : bool) (tt_times : list Q)
    (scores : ydata) : M figure :=
  draw (Plot tt_times scores color "Classif. score") ;;
  draw (Axhline 0.5) ;;
  match title with
  | Some s => draw (SetTitle s)
  | None => ret tt
  end ;;
  ymin <- match ymin with
          | None => lift (np_min_y scores)
          | Some v => ret v
          end ;;
  ymax <- match ymax with
          | None => lift (np_max_y scores)
          | Some v => ret v
          end ;;
  draw (SetYlim [ymin; ymax]) ;;
  match xmin, xmax with
  | Some a, Some b => draw (SetXlim [a; b])
  | _, _ => ret tt
  end ;;
  when xlabel (draw (SetXlabel "Time (s)")) ;;
  when ylabel
    (scorer <- lift (getattr "scorer_" (scorer_ gat)) ;;
     draw (SetYlabel ("Classif. score ("
                      +:+ (if contains "roc" scorer then "AUC" else "%")
                      +:+ ")"))) ;;
  when legend (draw Legend) ;;
  when show (draw Show) ;;
  ret (FigureOf ax).

(** The axes drawn on. *)
Definition axes_of (ax : option nat) : axes :=
  match ax with
  | None => NewAxes
  | Some id => CallerAxes id
  end.

(** The calls of lines 156-159, and those of lines 165-169. *)
Definition curve_calls (tt_times : list Q) (scores : ydata)
    (title : option string) (color : string) : trace :=
  [Plot tt_times scores color "Classif. score"; Axhline 0.5]
  ++ match title with
     | Some s => [SetTitle s]
     | None => []
     end.

Definition limit_calls (lo hi : Q) (xmin xmax : option Q) (xlabel : bool)
    : trace :=
  [SetYlim [lo; hi]]
  ++ match xmin, xmax with
     | Some a, Some b => [SetXlim [a; b]]
     | _, _ => []
     end
  ++ (if xlabel then [SetXlabel "Time (s)"] else []).

(** The calls of lines 173-176. *)
Definition closing_calls (legend show : bool) : trace :=
  (if legend then [Legend] else []) ++ (if show then [Show] else []).

(** The numbers a [ydata] holds. *)
Definition entries (y : ydata) : list Q :=
  match y with
  | YMatrix m => concat m
  | YVector v => v
  end.

(** A [ydata] that [np.min] and [np.max] accept. *)
Definition reducible (y : ydata) : Prop :=
  match y with
  | YMatrix m => rectangular m = true /\ concat m <> []
  | YVector v => v <> []
  end.

(** The arguments of the [ax.set_ylim], [ax.set_xlim] and [ax.set_ylabel]
    calls of a trace. *)
Definition ylim_of (c : call) : option (list Q) :=
  match c with
  | SetYlim l => Some l
  | _ => None
  end.

Definition xlim_of (c : call) : option (list Q) :=
  match c with
  | SetXlim l => Some l
  | _ => None
  end.

Definition ylabel_of (c : call) : option string :=
  match c with
  | SetYlabel l => Some l
  | _ => None
  end.

(** The [plt.show] calls of a trace. *)
Definition show_of (c : call) : option call :=
  match c with
  | Show => Some c
  | _ => None
  end.

(** Rationals that differ pairwise. *)
Definition distinct_times (l : list Q) : Prop :=
  forall i j x y,
    i <> j -> l !! i = Some x -> l !! j = Some y -> ~ (x == y)%Q.

(** ** Further inputs *)

(** No score rows and no times. *)
Definition empty_gat : GAT :=
  MkGAT (Some [])
        (Some (TimesDict (Some []) (Some 1%Q)))
        (Some (TimesDict (Some []) None))
        (Some "accuracy_score").

(** The example without its step. *)
Definition stepless_gat : GAT :=
  MkGAT (Some example_scores)
        (Some (TimesDict (Some [0; 1]%Q) None))
        (Some (TimesDict (Some [[0; 1]; [0; 1]]%Q) None))
        (Some "accuracy_score").

(** The example with an empty testing-time sequence. *)
Definition gap_gat : GAT :=
  MkGAT (Some example_scores)
        (Some (TimesDict (Some [0; 1]%Q) (Some 1%Q)))
        (Some (TimesDict (Some [[0; 1]; []]%Q) None))
        (Some "accuracy_score").

(** The example without a scorer, and with an area-under-curve scorer. *)
Definition scorerless_gat : GAT :=
  MkGAT (Some example_scores)
        (Some (TimesDict (Some [0; 1]%Q) (Some 1%Q)))
        (Some (TimesDict (Some [[0; 1]; [0; 1]]%Q) None))
        None.

Definition auc_gat : GAT :=
  MkGAT (Some example_scores)
        (Some (TimesDict (Some [0; 1]%Q) (Some 1%Q)))
        (Some (TimesDict (Some [[0; 1]; [0; 1]]%Q) None))
        (Some "make_scorer(roc_auc_score)").

(** Three score rows for two training times. *)
Definition tall_gat : GAT :=
  MkGAT (Some [[0.6; 0.7]; [0.5; 0.9]; [0.8; 0.4]]%Q)
        (Some (TimesDict (Some [0; 1]%Q) (Some 1%Q)))
        (Some (TimesDict (Some [[0; 1]; [0; 1]]%Q) None))
        (Some "accuracy_score").

(** Two score rows for three training times. *)
Definition short_gat : GAT :=
  MkGAT (Some example_scores)
        (Some (TimesDict (Some [0; 1; 2]%Q) (Some 1%Q)))
        (Some (TimesDict (Some [[0; 1]; [0; 1]]%Q) None))
        (Some "accuracy_score").

(** All testing times lie at least four steps before the training times. *)
Definition early_gat : GAT :=
  MkGAT (Some example_scores)
        (Some (TimesDict (Some [5; 6]%Q) (Some 1%Q)))
        (Some (TimesDict (Some [[0; 1]; [0; 1]]%Q) None))
        (Some "accuracy_score").

(** ** Times that float64 handles exactly *)

(** A whole number of magnitude at most 2^52.  The differences of such
    numbers are whole numbers of magnitude at most 2^53, which float64
    subtraction yields without rounding: on such times the rationals of
    lines 152 and 154 in this model are the numbers the code computes. *)
Definition whole (x : Q) : Prop :=
  Qden x = 1%positive /\ (Z.abs (Qnum x) <= 2 ^ 52)%Z.

(** The [ax.legend] and [plt.show] calls of a trace. *)
Definition closing_of (c : call) : option call :=
  match c with
  | Legend | Show => Some c
  | _ => None
  end.

(** The results object with another [scorer_] attribute, or none. *)
Definition with_scorer (gat : GAT) (scorer : option string) : GAT :=
  MkGAT (scores_ gat) (train_times gat) (test_times_ gat) scorer.

(** ** Checks on the example *)

Example example_matrix :
  run (plot_gat_matrix (example_gat 1) None None None None None "RdBu_r"
         true true true true)
  = (Ok (FigureOf NewAxes),
     [Subplots 1 1;
      Imshow example_scores [0; 1; 0; 1]%Q 0.5%Q 0.9%Q "RdBu_r";
      SetXlabel "Testing Time (s)"; SetYlabel "Training Time (s)";
      Axvline 0; Axhline 0; SetXlim [0; 1]%Q; SetYlim [0; 1]%Q;
      Colorbar; Show]).
Proof. reflexivity. Qed.

Example example_diagonal :
  run (plot_gat_diagonal (example_gat 1) None None None None None None
         true "b" true true true)
  = (Ok (FigureOf NewAxes),
     [Subplots 1 1;
      Plot [0; 1]%Q (YVector [0.6; 0.9]%Q) "b" "Classif. score";
      Axhline 0.5; SetYlim [0.6; 0.9]%Q; SetXlabel "Time (s)";
      SetYlabel "Classif. score (%)"; Legend; Show]).
Proof. reflexivity. Qed.

(** ** The monad *)

Lemma bind_draw {A} (c : call) (k : M A) (tr : trace) :
  (draw c ;; k) tr = k (tr ++ [c]).
Proof. reflexivity. Qed.

Lemma bind_ret {A B} (a : A) (k : A -> M B) (tr : trace) :
  (x <- ret a ;; k x) tr = k a tr.
Proof. reflexivity. Qed.

Lemma bind_lift_ok {A B} (a : A) (k : A -> M B) (tr : trace) :
  (x <- lift (Ok a) ;; k x) tr = k a tr.
Proof. reflexivity. Qed.

Lemma bind_lift_raise {A B} (e : exn) (k : A -> M B) (tr : trace) :
  (x <- lift (Raise e) ;; k x) tr = (Raise e, tr).
Proof. reflexivity. Qed.

Lemma bind_eq {A B} (m : M A) (k : A -> M B) (tr tr' : trace)
    (r : result A) :
  m tr = (r, tr') ->
  bind m k tr = match r with
                | Ok a => k a tr'
                | Raise e => (Raise e, tr')
                end.
Proof. intros H. unfold bind. rewrite H. reflexivity. Qed.

Section Quiet.
Context {X : Type} (f : call -> option X).

Lemma quiet_ret {A} (a : A) : quiet f (ret a).
Proof. intros tr. reflexivity. Qed.

Lemma quiet_lift {A} (r : result A) : quiet f (lift r).
Proof. intros tr. reflexivity. Qed.

Lemma quiet_raise {A} (e : exn) : quiet f (@raise A e).
Proof. intros tr. reflexivity. Qed.

Lemma quiet_draw (c : call) : f c = None -> quiet f (draw c).
Proof.
  intros Hc tr. unfold draw. cbn.
  rewrite omap_app. cbn. rewrite Hc. apply app_nil_r.
Qed.

Lemma quiet_bind {A B} (m : M A) (k : A -> M B) :
  quiet f m -> (forall a, quiet f (k a)) -> quiet f (bind m k).
Proof.
  intros Hm Hk tr. unfold bind. specialize (Hm tr).
  destruct (m tr) as [[a|e] tr']; cbn in *.
  - rewrite Hk. exact Hm.
  - exact Hm.
Qed.

Lemma quiet_when (b : bool) (m : M unit) :
  quiet f m -> quiet f (when b m).
Proof. intros Hm. destruct b; [exact Hm | apply quiet_ret]. Qed.
End Quiet.

Ltac quiet_step :=
  first
    [ apply quiet_ret
    | apply quiet_lift
    | apply quiet_raise
    | apply quiet_draw; reflexivity
    | apply quiet_when
    | apply quiet_bind; [ | intros ? ]
    | match goal with
      | |- quiet _ (match ?x with _ => _ end) => destruct x
      end ].

Ltac quiet_solve := repeat quiet_step.

(** ** Shape detection (line 143) *)

Lemma elem_of_insert_unique (n x : nat) (l : list nat) :
  x ∈ insert_unique n l <-> x = n \/ x ∈ l.
Proof.
  induction l as [|y r IH]; cbn [insert_unique].
  - rewrite list_elem_of_singleton, elem_of_nil. tauto.
  - destruct (n <? y)%nat eqn:Hlt; [rewrite !elem_of_cons; tauto|].
    destruct (n =? y)%nat eqn:Heq.
    + apply Nat.eqb_eq in Heq. subst y. rewrite !elem_of_cons. tauto.
    + rewrite !elem_of_cons, IH. tauto.
Qed.

Lemma elem_of_np_unique (x : nat) (l : list nat) :
  x ∈ np_unique l <-> x ∈ l.
Proof.
  unfold np_unique. induction l as [|y r IH]; cbn; [reflexivity|].
  rewrite elem_of_insert_unique, IH, elem_of_cons. reflexivity.
Qed.

Lemma np_all_map_true {A} (f : A -> bool) (l : list A) :
  np_all (map f l) = true <-> Forall (fun x => f x = true) l.
Proof.
  unfold np_all. induction l as [|y r IH]; cbn.
  - split; [constructor | reflexivity].
  - rewrite andb_true_iff, IH, Forall_cons. reflexivity.
Qed.

Lemma is_diagonal_iff (tn_times : list (list Q)) :
  is_diagonal tn_times = true
  <-> Forall (fun t => length t = 1%nat) tn_times.
Proof.
  unfold is_diagonal. rewrite np_all_map_true, !Forall_forall. split.
  - intros H t Ht. apply Nat.eqb_eq, H, elem_of_np_unique.
    apply list_elem_of_fmap. exists t. split; [reflexivity | exact Ht].
  - intros H n Hn. apply elem_of_np_unique, list_elem_of_fmap in Hn.
    destruct Hn as (t & -> & Ht). apply Nat.eqb_eq, H, Ht.
Qed.

(** ** Results not scored *)

Lemma unscored_fails (gat : GAT) (tr : trace) :
  scores_ gat = None ->
  (forall title vmin vmax tlim ax cmap show colorbar xlabel ylabel,
      plot_gat_matrix gat title vmin vmax tlim ax cmap show colorbar
        xlabel ylabel tr
      = (Raise not_scored, tr))
  /\ (forall title xmin xmax ymin ymax ax show color xlabel ylabel legend,
      plot_gat_diagonal gat title xmin xmax ymin ymax ax show color
        xlabel ylabel legend tr
      = (Raise not_scored, tr)).
Proof.
  intros Hno.
  split; intros; unfold plot_gat_matrix, plot_gat_diagonal;
    rewrite Hno; reflexivity.
Qed.

(** C1: when the results object has no [scores_] attribute, both
    plot_gat_matrix and plot_gat_diagonal raise the RuntimeError "Please
    score your data before trying to plot scores", whatever the other
    arguments are, and the list of plotting calls is left as it was: the
    error comes before any plotting call. *)
Theorem unscored_raises_before_drawing (gat : GAT) (tr : trace)
    (Hno : scores_ gat = None) :
  (forall title vmin vmax tlim ax cmap show colorbar xlabel ylabel,
      plot_gat_matrix gat title vmin vmax tlim ax cmap show colorbar
        xlabel ylabel tr
      = (Raise (RuntimeError
                  "Please score your data before trying to plot scores"),
         tr))
  /\ (forall title xmin xmax ymin ymax ax show color xlabel ylabel legend,
      plot_gat_diagonal gat title xmin xmax ymin ymax ax show color
        xlabel ylabel legend tr
      = (Raise (RuntimeError
                  "Please score your data before trying to plot scores"),
         tr)).
Proof. exact (unscored_fails gat tr Hno). Qed.

Lemma unscored_raises_before_drawing_witness :
  run (plot_gat_matrix unscored_gat None None None None None "RdBu_r"
         true true true true) = (Raise not_scored, [])
  /\ run (plot_gat_diagonal unscored_gat None None None None None None
            true "b" true true true) = (Raise not_scored, []).
Proof.
  destruct (unscored_raises_before_drawing unscored_gat [] eq_refl)
    as [Hmatrix Hdiagonal].
  split; [apply Hmatrix | apply Hdiagonal].
Defined.

(** ** The two functions as a pure part followed by plotting calls *)

Lemma plotted_app (tr1 tr2 : trace) :
  plotted (tr1 ++ tr2) = plotted tr1 ++ plotted tr2.
Proof. apply omap_app. Qed.

Lemma shown_app (tr1 tr2 : trace) :
  shown (tr1 ++ tr2) = shown tr1 ++ shown tr2.
Proof. apply omap_app. Qed.

Lemma plotted_with_axes (ax : option nat) (tr : trace) :
  plotted (with_axes ax tr) = plotted tr.
Proof.
  destruct ax; cbn; [reflexivity|].
  rewrite plotted_app. apply app_nil_r.
Qed.

Lemma shown_with_axes (ax : option nat) (tr : trace) :
  shown (with_axes ax tr) = shown tr.
Proof.
  destruct ax; cbn; [reflexivity|].
  rewrite shown_app. apply app_nil_r.
Qed.

(** plot_gat_matrix on scored results: it stops with the exception of
    lines 64-73, having at most created the axes, or makes all its calls. *)
Lemma plot_gat_matrix_scored (gat : GAT) (s : list (list Q))
    (title : option string) (vmin vmax : option Q) (tlim : option (list Q))
    (ax : option nat) (cmap : string) (show colorbar xlabel ylabel : bool)
    (tr : trace) :
  scores_ gat = Some s ->
  plot_gat_matrix gat title vmin vmax tlim ax cmap show colorbar xlabel
    ylabel tr
  = match matrix_args gat s vmin vmax tlim with
    | Raise e => (Raise e, with_axes ax tr)
    | Ok (lo, hi, ext) =>
        (Ok (FigureOf match ax with
                      | None => NewAxes
                      | Some id => CallerAxes id
                      end),
         with_axes ax tr
         ++ matrix_calls s lo hi ext title cmap show colorbar xlabel ylabel)
    end.
Proof.
  intros Hs. unfold plot_gat_matrix, matrix_args, matrix_calls.
  rewrite Hs.
  destruct ax as [id|], vmin as [lo|], vmax as [hi|], tlim as [ext|];
    cbn [rbind with_axes];
    repeat match goal with
      | |- context [np_min2 s] => destruct (np_min2 s)
      | |- context [np_max2 s] => destruct (np_max2 s)
      | |- context [default_tlim gat] => destruct (default_tlim gat)
      end;
    try reflexivity;
    destruct xlabel, ylabel, title, colorbar, show; cbn;
    rewrite <- ?app_assoc; reflexivity.
Qed.

(** Lines 158-177 make no [ax.plot] call, whatever they are given and
    wherever they stop. *)
Lemma diagonal_tail_quiet (gat : GAT) (title : option string)
    (xmin xmax ymin ymax : option Q) (a : axes) (show xlabel ylabel
    legend : bool) (scores : ydata) :
  quiet plot_of
    (draw (Axhline 0.5) ;;
     match title with
     | Some s => draw (SetTitle s)
     | None => ret tt
     end ;;
     ymin <- match ymin with
             | None => lift (np_min_y scores)
             | Some v => ret v
             end ;;
     ymax <- match ymax with
             | None => lift (np_max_y scores)
             | Some v => ret v
             end ;;
     draw (SetYlim [ymin; ymax]) ;;
     match xmin, xmax with
     | Some a, Some b => draw (SetXlim [a; b])
     | _, _ => ret tt
     end ;;
     when xlabel (draw (SetXlabel "Time (s)")) ;;
     when ylabel
       (scorer <- lift (getattr "scorer_" (scorer_ gat)) ;;
        draw (SetYlabel ("Classif. score ("
                         +:+ (if contains "roc" scorer then "AUC" else "%")
                         +:+ ")"))) ;;
     when legend (draw Legend) ;;
     when show (draw Show) ;;
     ret (FigureOf a)).
Proof. quiet_solve. Qed.

(** plot_gat_diagonal on scored results: it stops with the exception of
    lines 143-156, having at most created the axes, or calls [ax.plot] once
    on the data of these lines. *)
Lemma plot_gat_diagonal_scored (gat : GAT) (s : list (list Q))
    (title : option string) (xmin xmax ymin ymax : option Q)
    (ax : option nat) (show : bool) (color : string)
    (xlabel ylabel legend : bool) (tr : trace) :
  scores_ gat = Some s ->
  match diagonal_data gat s with
  | Raise e =>
      plot_gat_diagonal gat title xmin xmax ymin ymax ax show color xlabel
        ylabel legend tr
      = (Raise e, with_axes ax tr)
  | Ok (scores, tt_times) =>
      plotted (plot_gat_diagonal gat title xmin xmax ymin ymax ax show
                 color xlabel ylabel legend tr).2
      = plotted tr ++ [scores]
  end.
Proof.
  intros Hs. unfold plot_gat_diagonal, diagonal_data. rewrite Hs.
  assert (Hax : forall B (k : axes -> M B),
            (a <- match ax with
                  | None => draw (Subplots 1 1) ;; ret NewAxes
                  | Some id => ret (CallerAxes id)
                  end ;; k a) tr
            = k match ax with None => NewAxes | Some id => CallerAxes id end
                (with_axes ax tr)).
  { intros B k. destruct ax; reflexivity. }
  rewrite Hax. clear Hax.
  destruct (test_times_ gat) as [tn_dict|]; cbn [getattr rbind];
    [rewrite bind_lift_ok | reflexivity].
  destruct (times_ tn_dict) as [tn_times|]; cbn [getkey rbind];
    [rewrite bind_lift_ok | reflexivity].
  set (data := if is_diagonal tn_times then Ok (YMatrix s)
               else rbind (diagonal_scores gat s) (fun v => Ok (YVector v))).
  assert (Hdata : forall tr' : trace,
            (if is_diagonal tn_times then ret (YMatrix s)
             else v <- lift (diagonal_scores gat s) ;; ret (YVector v)) tr'
            = (data, tr')).
  { intros tr'. subst data. destruct (is_diagonal tn_times); [reflexivity|].
    unfold bind, lift. destruct (diagonal_scores gat s); reflexivity. }
  rewrite (bind_eq _ _ _ _ _ (Hdata _)).
  destruct data as [scores|e]; [|reflexivity].
  cbn [rbind].
  destruct (train_times gat) as [tt_dict|]; cbn [getattr rbind];
    [rewrite bind_lift_ok | reflexivity].
  destruct (times_ tt_dict) as [tt_times|]; cbn [getkey rbind];
    [rewrite bind_lift_ok | reflexivity].
  rewrite bind_draw.
  match goal with
  | |- context [?k (with_axes ax tr ++ [?c])] =>
      assert (Hq : quiet plot_of k) by apply diagonal_tail_quiet;
      pose proof (Hq (with_axes ax tr ++ [c])) as Hp;
      destruct (k (with_axes ax tr ++ [c])) as [r tr'] eqn:Hk
  end.
  cbn [fst snd] in *. fold (plotted tr') in Hp. rewrite Hp.
  fold (plotted (with_axes ax tr
                 ++ [Plot tt_times scores color "Classif. score"])).
  rewrite plotted_app, plotted_with_axes. reflexivity.
Qed.

(** ** Python indexing *)

Lemma getitem_nat {A} (l : list A) (i : nat) :
  getitem l (Z.of_nat i) = match l !! i with
                           | Some a => Ok a
                           | None => Raise IndexError
                           end.
Proof.
  unfold getitem.
  destruct (Z.ltb_spec (Z.of_nat i) 0) as [Hneg|_]; [lia|].
  destruct (Z.ltb_spec (Z.of_nat i) 0) as [Hneg|_]; [lia|].
  rewrite Nat2Z.id. reflexivity.
Qed.

Lemma getitem_first {A} (l : list A) (x : A) :
  head l = Some x -> getitem l 0 = Ok x.
Proof. destruct l; intros [= ->]. reflexivity. Qed.

Lemma getitem_last {A} (l : list A) (x : A) :
  last l = Some x -> getitem l (-1) = Ok x.
Proof.
  intros Hlast. unfold getitem. cbn [Z.ltb Z.compare].
  assert (Hlen : (0 < length l)%nat).
  { destruct l; [discriminate | cbn; lia]. }
  destruct (Z.ltb_spec (-1 + Z.of_nat (length l)) 0) as [Hneg|_]; [lia|].
  replace (Z.to_nat (-1 + Z.of_nat (length l))) with (pred (length l))
    by lia.
  rewrite <- last_lookup, Hlast. reflexivity.
Qed.

(** ** Comparisons and reductions on rationals *)

Lemma Qlt_bool_true (x y : Q) : Qlt_bool x y = true -> (x < y)%Q.
Proof.
  unfold Qlt_bool. intros H. apply negb_true_iff in H.
  apply Qnot_le_lt. intros Hle. apply Qle_bool_iff in Hle. congruence.
Qed.

Lemma Qlt_bool_false (x y : Q) : Qlt_bool x y = false -> (y <= x)%Q.
Proof.
  unfold Qlt_bool. intros H. apply negb_false_iff in H.
  apply Qle_bool_iff, H.
Qed.

Lemma min_of_least (x : Q) (r : list Q) : is_least (min_of x r) (x :: r).
Proof.
  unfold min_of, is_least. revert x.
  induction r as [|y r IH]; intros x; cbn [fold_left].
  - split; [left | repeat constructor; apply Qle_refl].
  - destruct (Qlt_bool y x) eqn:Hlt.
    + destruct (IH y) as [Hin Hall]. apply Qlt_bool_true in Hlt.
      split; [right; exact Hin|].
      apply Forall_cons in Hall as [Hy Hr].
      repeat apply Forall_cons_2; [| exact Hy | exact Hr].
      eapply Qle_trans; [exact Hy | apply Qlt_le_weak, Hlt].
    + destruct (IH x) as [Hin Hall]. apply Qlt_bool_false in Hlt.
      apply Forall_cons in Hall as [Hx Hr].
      split.
      * apply elem_of_cons in Hin as [->|Hin]; [left | right; right; exact Hin].
      * repeat apply Forall_cons_2; [exact Hx | | exact Hr].
        eapply Qle_trans; [exact Hx | exact Hlt].
Qed.

Lemma max_of_greatest (x : Q) (r : list Q) :
  is_greatest (max_of x r) (x :: r).
Proof.
  unfold max_of, is_greatest. revert x.
  induction r as [|y r IH]; intros x; cbn [fold_left].
  - split; [left | repeat constructor; apply Qle_refl].
  - destruct (Qlt_bool x y) eqn:Hlt.
    + destruct (IH y) as [Hin Hall]. apply Qlt_bool_true in Hlt.
      split; [right; exact Hin|].
      apply Forall_cons in Hall as [Hy Hr].
      repeat apply Forall_cons_2; [| exact Hy | exact Hr].
      eapply Qle_trans; [apply Qlt_le_weak, Hlt | exact Hy].
    + destruct (IH x) as [Hin Hall]. apply Qlt_bool_false in Hlt.
      apply Forall_cons in Hall as [Hx Hr].
      split.
      * apply elem_of_cons in Hin as [->|Hin]; [left | right; right; exact Hin].
      * repeat apply Forall_cons_2; [exact Hx | | exact Hr].
        eapply Qle_trans; [exact Hlt | exact Hx].
Qed.

Lemma square_rectangular (s : list (list Q)) (n : nat) :
  Forall (fun r => length r = n) s -> rectangular s = true.
Proof.
  intros Hall. destruct s as [|r rest]; [reflexivity|]. cbn.
  apply Forall_cons in Hall as [Hr Hrest].
  apply forallb_forall. intros r' Hin. apply Nat.eqb_eq.
  rewrite Forall_forall in Hrest. rewrite Hr.
  apply Hrest, list_elem_of_In, Hin.
Qed.

Lemma square_nonempty (s : list (list Q)) (n : nat) :
  (0 < n)%nat -> length s = n -> Forall (fun r => length r = n) s ->
  exists x r, concat s = x :: r.
Proof.
  intros Hn Hlen Hall. destruct s as [|[|x r] rest]; cbn in *.
  - lia.
  - apply Forall_cons in Hall as [Hr _]. cbn in Hr. lia.
  - eauto.
Qed.

Lemma np_min2_square (s : list (list Q)) (n : nat) :
  (0 < n)%nat -> length s = n -> Forall (fun r => length r = n) s ->
  exists lo, np_min2 s = Ok lo /\ is_least lo (concat s).
Proof.
  intros Hn Hlen Hall. unfold np_min2, np_asarray2.
  rewrite (square_rectangular s n Hall).
  destruct (square_nonempty s n Hn Hlen Hall) as (x & r & ->).
  exists (min_of x r). split; [reflexivity | apply min_of_least].
Qed.

Lemma np_max2_square (s : list (list Q)) (n : nat) :
  (0 < n)%nat -> length s = n -> Forall (fun r => length r = n) s ->
  exists hi, np_max2 s = Ok hi /\ is_greatest hi (concat s).
Proof.
  intros Hn Hlen Hall. unfold np_max2, np_asarray2.
  rewrite (square_rectangular s n Hall).
  destruct (square_nonempty s n Hn Hlen Hall) as (x & r & ->).
  exists (max_of x r). split; [reflexivity | apply max_of_greatest].
Qed.

Lemma shown_matrix_calls (s : list (list Q)) (lo hi : Q) (ext : list Q)
    (title : option string) (cmap : string)
    (show colorbar xlabel ylabel : bool) :
  shown (matrix_calls s lo hi ext title cmap show colorbar xlabel ylabel)
  = [Imshow s ext lo hi cmap].
Proof. destruct title, show, colorbar, xlabel, ylabel; reflexivity. Qed.

(** The [ax.imshow] call of plot_gat_matrix once lines 64-73 succeed. *)
Lemma plot_gat_matrix_shown (gat : GAT) (s : list (list Q))
    (title : option string) (vmin vmax : option Q) (tlim : option (list Q))
    (ax : option nat) (cmap : string) (show colorbar xlabel ylabel : bool)
    (tr : trace) (lo hi : Q) (ext : list Q) :
  scores_ gat = Some s ->
  matrix_args gat s vmin vmax tlim = Ok (lo, hi, ext) ->
  shown (plot_gat_matrix gat title vmin vmax tlim ax cmap show colorbar
           xlabel ylabel tr).2
  = shown tr ++ [Imshow s ext lo hi cmap].
Proof.
  intros Hs Hargs.
  rewrite (plot_gat_matrix_scored gat s) by exact Hs.
  rewrite Hargs. cbn [snd].
  rewrite shown_app, shown_with_axes, shown_matrix_calls. reflexivity.
Qed.

(** ** The identity path of plot_gat_diagonal *)

(** C5: when every testing-time sequence has exactly one element, the
    shape test of line 143 succeeds, so the nearest-neighbour branch is not
    taken, and the one [ax.plot] call of plot_gat_diagonal receives
    [gat.scores_] itself.  Nothing is assumed on the step or on the shape
    of the scores, which only the other branch reads. *)
Theorem diagonal_identity_path (gat : GAT) (s : list (list Q))
    (tn_dict : times_dict (list (list Q))) (tn_times : list (list Q))
    (tt_dict : times_dict (list Q)) (tt_times : list Q)
    (Hscores : scores_ gat = Some s)
    (Htest : test_times_ gat = Some tn_dict)
    (Htest_times : times_ tn_dict = Some tn_times)
    (Hone : Forall (fun t => length t = 1%nat) tn_times)
    (Htrain : train_times gat = Some tt_dict)
    (Htrain_times : times_ tt_dict = Some tt_times) :
  is_diagonal tn_times = true
  /\ diagonal_data gat s = Ok (YMatrix s, tt_times)
  /\ forall title xmin xmax ymin ymax ax show color xlabel ylabel legend tr,
      plotted (plot_gat_diagonal gat title xmin xmax ymin ymax ax show
                 color xlabel ylabel legend tr).2
      = plotted tr ++ [YMatrix s].
Proof.
  assert (Hd : is_diagonal tn_times = true) by (apply is_diagonal_iff, Hone).
  assert (Hdata : diagonal_data gat s = Ok (YMatrix s, tt_times)).
  { unfold diagonal_data. rewrite Htest. cbn [getattr rbind].
    rewrite Htest_times. cbn [getkey rbind]. rewrite Hd. cbn [rbind].
    rewrite Htrain. cbn [getattr rbind]. rewrite Htrain_times. reflexivity. }
  split; [exact Hd|]. split; [exact Hdata|]. intros.
  pose proof (plot_gat_diagonal_scored gat s title xmin xmax ymin ymax ax
                show color xlabel ylabel legend tr Hscores) as Hrun.
  rewrite Hdata in Hrun. exact Hrun.
Qed.

Lemma diagonal_identity_path_witness :
  plotted (run (plot_gat_diagonal column_gat None None None None None None
                  true "b" true true true)).2
  = [YMatrix [[0.6]; [0.9]]%Q].
Proof.
  apply (diagonal_identity_path column_gat [[0.6]; [0.9]]%Q
           (TimesDict (Some [[0]; [1]]%Q) None) [[0]; [1]]%Q
           (TimesDict (Some [0; 1]%Q) None) [0; 1]%Q
           eq_refl eq_refl eq_refl
           ltac:(repeat constructor) eq_refl eq_refl).
Defined.

(** On [column_gat] the nearest-neighbour search, had it run, would have
    stopped on the missing step. *)
Example column_search_not_run :
  diagonal_scores column_gat [[0.6]; [0.9]]%Q = Raise (KeyError "step")
  /\ (run (plot_gat_diagonal column_gat None None None None None None
             true "b" true false true)).1
     = Ok (FigureOf NewAxes).
Proof. split; reflexivity. Qed.

(** ** The color limits of plot_gat_matrix *)

(** C6: for a square matrix of scores (n rows of n entries, n > 0), when
    neither [vmin] nor [vmax] is given, the color limits handed to
    [ax.imshow] are a least and a greatest entry of the matrix, whenever
    the temporal boundaries are given or can be computed. *)
Theorem matrix_default_color_bounds (gat : GAT) (s : list (list Q))
    (n : nat) (Hscores : scores_ gat = Some s) (Hn : (0 < n)%nat)
    (Hrows : length s = n) (Hcols : Forall (fun r => length r = n) s) :
  exists lo hi,
    np_min2 s = Ok lo /\ is_least lo (concat s)
    /\ np_max2 s = Ok hi /\ is_greatest hi (concat s)
    /\ forall title tlim ext ax cmap show colorbar xlabel ylabel tr,
        tlim = Some ext \/ (tlim = None /\ default_tlim gat = Ok ext) ->
        shown (plot_gat_matrix gat title None None tlim ax cmap show
                 colorbar xlabel ylabel tr).2
        = shown tr ++ [Imshow s ext lo hi cmap].
Proof.
  destruct (np_min2_square s n Hn Hrows Hcols) as (lo & Hlo & Hleast).
  destruct (np_max2_square s n Hn Hrows Hcols) as (hi & Hhi & Hgreatest).
  exists lo, hi. repeat (split; [assumption|]).
  intros title tlim ext ax cmap show colorbar xlabel ylabel tr Htlim.
  apply plot_gat_matrix_shown; [exact Hscores|].
  unfold matrix_args. rewrite Hlo, Hhi. cbn [rbind].
  destruct Htlim as [->|[-> ->]]; reflexivity.
Qed.

Lemma matrix_default_color_bounds_witness :
  exists lo hi,
    np_min2 example_scores = Ok lo /\ is_least lo (concat example_scores)
    /\ np_max2 example_scores = Ok hi
    /\ is_greatest hi (concat example_scores)
    /\ forall title tlim ext ax cmap show colorbar xlabel ylabel tr,
        tlim = Some ext
        \/ (tlim = None /\ default_tlim (example_gat 1) = Ok ext) ->
        shown (plot_gat_matrix (example_gat 1) title None None tlim ax cmap
                 show colorbar xlabel ylabel tr).2
        = shown tr ++ [Imshow example_scores ext lo hi cmap].
Proof.
  apply (matrix_default_color_bounds (example_gat 1) example_scores 2
           eq_refl ltac:(lia) eq_refl ltac:(repeat constructor)).
Defined.

(** ** The temporal boundaries of plot_gat_matrix *)

Lemma default_tlim_ok (gat : GAT) (tt_dict : times_dict (list Q))
    (tt_times : list Q) (tn_dict : times_dict (list (list Q)))
    (tn_times : list (list Q)) (tn_first tn_last : list Q) (x0 x1 y0 y1 : Q) :
  train_times gat = Some tt_dict -> times_ tt_dict = Some tt_times ->
  test_times_ gat = Some tn_dict -> times_ tn_dict = Some tn_times ->
  head tn_times = Some tn_first -> head tn_first = Some x0 ->
  last tn_times = Some tn_last -> last tn_last = Some x1 ->
  head tt_times = Some y0 -> last tt_times = Some y1 ->
  default_tlim gat = Ok [x0; x1; y0; y1].
Proof.
  intros Htt Htt' Htn Htn' Hf Hx0 Hl Hx1 Hy0 Hy1. unfold default_tlim.
  rewrite Htt; cbn [getattr rbind]. rewrite Htt'; cbn [getkey rbind].
  rewrite Htn; cbn [getattr rbind]. rewrite Htn'; cbn [getkey rbind].
  rewrite (getitem_first _ _ Hf); cbn [rbind].
  rewrite (getitem_first _ _ Hx0); cbn [rbind].
  rewrite (getitem_last _ _ Hl); cbn [rbind].
  rewrite (getitem_last _ _ Hx1); cbn [rbind].
  rewrite (getitem_first _ _ Hy0); cbn [rbind].
  rewrite (getitem_last _ _ Hy1); cbn [rbind].
  reflexivity.
Qed.

(** C8: when [tlim] is not given, the extent handed to [ax.imshow] is
    [first testing time, last testing time, first training time, last
    training time], the first testing time being the first element of the
    first testing-time sequence and the last one the last element of the
    last sequence.  The sequences are not compared with each other: the
    statement holds whatever the sequences in between are and whether or
    not the first and the last one agree. *)
Theorem matrix_default_extent (gat : GAT) (s : list (list Q))
    (tt_dict : times_dict (list Q)) (tt_times : list Q)
    (tn_dict : times_dict (list (list Q))) (tn_times : list (list Q))
    (tn_first tn_last : list Q) (x0 x1 y0 y1 lo hi : Q)
    (vmin vmax : option Q)
    (Hscores : scores_ gat = Some s)
    (Hlo : bound_is vmin (np_min2 s) lo)
    (Hhi : bound_is vmax (np_max2 s) hi)
    (Htrain : train_times gat = Some tt_dict)
    (Htrain_times : times_ tt_dict = Some tt_times)
    (Htest : test_times_ gat = Some tn_dict)
    (Htest_times : times_ tn_dict = Some tn_times)
    (Hfirst : head tn_times = Some tn_first) (Hx0 : head tn_first = Some x0)
    (Hlast : last tn_times = Some tn_last) (Hx1 : last tn_last = Some x1)
    (Hy0 : head tt_times = Some y0) (Hy1 : last tt_times = Some y1) :
  default_tlim gat = Ok [x0; x1; y0; y1]
  /\ forall title ax cmap show colorbar xlabel ylabel tr,
      plot_gat_matrix gat title vmin vmax None ax cmap show colorbar xlabel
        ylabel tr
      = (Ok (FigureOf match ax with
                      | None => NewAxes
                      | Some id => CallerAxes id
                      end),
         with_axes ax tr
         ++ matrix_calls s lo hi [x0; x1; y0; y1] title cmap show colorbar
              xlabel ylabel).
Proof.
  assert (Hext : default_tlim gat = Ok [x0; x1; y0; y1])
    by (eapply default_tlim_ok; eassumption).
  split; [exact Hext|]. intros.
  rewrite (plot_gat_matrix_scored gat s) by exact Hscores.
  unfold matrix_args. rewrite Hext.
  destruct Hlo as [->|[-> ->]], Hhi as [->|[-> ->]]; reflexivity.
Qed.

Lemma matrix_default_extent_witness :
  run (plot_gat_matrix ragged_gat None None None None None "RdBu_r"
         true true true true)
  = (Ok (FigureOf NewAxes),
     [Subplots 1 1;
      Imshow example_scores [0; 7; 0; 1]%Q 0.5%Q 0.9%Q "RdBu_r";
      SetXlabel "Testing Time (s)"; SetYlabel "Training Time (s)";
      Axvline 0; Axhline 0; SetXlim [0; 7]%Q; SetYlim [0; 1]%Q;
      Colorbar; Show]).
Proof.
  apply (matrix_default_extent ragged_gat example_scores
           (TimesDict (Some [0; 1]%Q) (Some 1%Q)) [0; 1]%Q
           (TimesDict (Some [[0; 1]; [5; 6; 7]]%Q) None)
           [[0; 1]; [5; 6; 7]]%Q [0; 1]%Q [5; 6; 7]%Q 0 7 0 1 0.5 0.9
           None None eq_refl
           (or_intror (conj eq_refl eq_refl))
           (or_intror (conj eq_refl eq_refl))
           eq_refl eq_refl eq_refl eq_refl eq_refl eq_refl eq_refl eq_refl
           eq_refl eq_refl).
Defined.

(** ** The nearest-neighbour search (lines 148-155) *)

Lemma accepted_same (T st : Q) : (0 <= st)%Q -> accepted T T st = true.
Proof.
  intros Hst. unfold accepted. apply Qle_bool_iff.
  unfold Qminus. rewrite Qplus_opp_r. exact Hst.
Qed.

Lemma argmin_from_spec (l : list Q) (best : nat) (bv : Q) (k : nat) :
  (argmin_from best bv k l = best /\ min_of bv l = bv)
  \/ ((k <= argmin_from best bv k l)%nat
      /\ l !! (argmin_from best bv k l - k)%nat = Some (min_of bv l)).
Proof.
  unfold min_of. revert best bv k.
  induction l as [|x r IH]; intros best bv k; cbn [argmin_from fold_left].
  - left. split; reflexivity.
  - destruct (Qlt_bool x bv).
    + right. destruct (IH k x (S k)) as [[-> ->]|[Hle Hlook]].
      * split; [lia|]. rewrite Nat.sub_diag. reflexivity.
      * split; [lia|].
        replace (argmin_from k x (S k) r - k)%nat
          with (S (argmin_from k x (S k) r - S k)) by lia.
        exact Hlook.
    + destruct (IH best bv (S k)) as [[Hbest Hmin]|[Hle Hlook]].
      * left. split; assumption.
      * right. split; [lia|].
        replace (argmin_from best bv (S k) r - k)%nat
          with (S (argmin_from best bv (S k) r - S k)) by lia.
        exact Hlook.
Qed.

(** [argmin] returns the index of a least entry. *)
Lemma argmin_least (v : list Q) :
  v <> [] -> exists m, v !! argmin v = Some m /\ is_least m v.
Proof.
  destruct v as [|x r]; [congruence|]. intros _.
  exists (min_of x r). split; [|apply min_of_least].
  unfold argmin.
  destruct (argmin_from_spec r 0 x 1) as [[-> ->]|[Hle Hlook]];
    [reflexivity|].
  replace (argmin_from 0 x 1 r) with (S (argmin_from 0 x 1 r - 1)) by lia.
  exact Hlook.
Qed.

(** Line 152 finds a testing time of [t] at the least distance from [T]. *)
Lemma nearest_closest (t : list Q) (T : Q) :
  t <> [] ->
  exists tj, t !! nearest t T = Some tj
             /\ Forall (fun x => (Qabs (tj - T) <= Qabs (x - T))%Q) t.
Proof.
  intros Hne. unfold nearest.
  destruct (argmin_least (abs_diff t T)) as (m & Hlook & Hin & Hall).
  { destruct t; [congruence | discriminate]. }
  unfold abs_diff in *. rewrite list_lookup_fmap in Hlook.
  destruct (t !! argmin (map (fun x => Qabs (x - T)) t)) as [tj|] eqn:Htj;
    [|discriminate].
  change (Some (Qabs (tj - T)) = Some m) in Hlook.
  assert (Hm : Qabs (tj - T) = m) by congruence. subst m.
  exists tj. split; [reflexivity|].
  rewrite Forall_forall in Hall. apply Forall_forall. intros x Hx.
  apply Hall, list_elem_of_fmap. exists x. split; [reflexivity | exact Hx].
Qed.

(** A testing time within one step of [T] makes the closest one accepted. *)
Lemma within_step_accepted (t : list Q) (T st x : Q) :
  x ∈ t -> (Qabs (x - T) <= st)%Q ->
  accepted T (nth (nearest t T) t 0%Q) st = true.
Proof.
  intros Hin Hx.
  destruct (nearest_closest t T) as (tj & Hlook & Hall).
  { intros ->. apply elem_of_nil in Hin. exact Hin. }
  rewrite (nth_lookup_Some _ _ _ _ Hlook).
  unfold accepted. apply Qle_bool_iff.
  rewrite Forall_forall in Hall. specialize (Hall x Hin).
  eapply Qle_trans; [apply Qle_Qabs|].
  rewrite Qabs_Qminus.
  eapply Qle_trans; [exact Hall | exact Hx].
Qed.

Section RaggedPath.
Context (gat : GAT) (s : list (list Q)).
Context (tt_dict : times_dict (list Q)) (st : Q).
Context (tn_dict : times_dict (list (list Q))) (tn_times : list (list Q)).
Hypothesis Htrain : train_times gat = Some tt_dict.
Hypothesis Hstep : step tt_dict = Some st.
Hypothesis Htest : test_times_ gat = Some tn_dict.
Hypothesis Htest_times : times_ tn_dict = Some tn_times.

Lemma scan_one_eval (i : nat) (T : Q) (t : list Q) (scores : list Q)
    (row : list Q) (cur : Q) :
  readable s t -> s !! i = Some row -> scores !! i = Some cur ->
  scan_one gat s i T t scores
  = Ok (<[i := cell_step row T st cur t]> scores).
Proof.
  intros [Hne Hrows] Hrow Hcur. unfold scan_one, cell_step.
  destruct (nearest_closest t T Hne) as (tj & Htj & _).
  assert (Hargmin : np_argmin (abs_diff t T) = Ok (nearest t T)).
  { destruct t; [congruence | reflexivity]. }
  rewrite Hargmin. cbn [rbind].
  rewrite getitem_nat, Htj. cbn [rbind].
  rewrite Htrain. cbn [getattr rbind]. rewrite Hstep. cbn [getkey rbind].
  rewrite (nth_lookup_Some _ _ _ _ Htj).
  destruct (accepted T tj st).
  - rewrite getitem_nat, Hrow. cbn [rbind].
    assert (Hj : is_Some (row !! nearest t T)).
    { apply lookup_lt_is_Some.
      rewrite Forall_forall in Hrows.
      specialize (Hrows row (list_elem_of_lookup_2 _ _ _ Hrow)).
      apply lookup_lt_Some in Htj. lia. }
    destruct Hj as [v Hv]. rewrite getitem_nat, Hv. cbn [rbind].
    rewrite (nth_lookup_Some _ _ _ _ Hv). unfold setitem.
    apply lookup_lt_Some in Hcur.
    destruct (Nat.ltb_spec i (length scores)); [reflexivity | lia].
  - rewrite list_insert_id by exact Hcur. reflexivity.
Qed.

Lemma scan_tests_eval (i : nat) (T : Q) (row : list Q) (tn : list (list Q)) :
  Forall (readable s) tn -> s !! i = Some row ->
  forall (scores : list Q) (cur : Q),
    scores !! i = Some cur ->
    scan_tests gat s i T tn scores
    = Ok (<[i := cell row T st tn cur]> scores).
Proof.
  intros Hall Hrow. unfold cell.
  induction Hall as [|t tn Ht Htn IH]; intros scores cur Hcur;
    cbn [scan_tests fold_left].
  - rewrite list_insert_id by exact Hcur. reflexivity.
  - rewrite (scan_one_eval i T t scores row cur Ht Hrow Hcur).
    cbn [rbind].
    rewrite (IH _ (cell_step row T st cur t)).
    + rewrite list_insert_insert_eq. reflexivity.
    + apply list_lookup_insert_eq. apply lookup_lt_Some in Hcur. exact Hcur.
Qed.

Lemma scan_trains_eval (tt : list Q) :
  Forall (readable s) tn_times ->
  forall (i : nat) (scores : list Q),
    length scores = length s -> (i + length tt <= length s)%nat ->
    exists v,
      scan_trains gat s i tt scores = Ok v
      /\ length v = length s
      /\ (forall k, (k < i)%nat -> v !! k = scores !! k)
      /\ (forall m T row cur,
            tt !! m = Some T -> s !! (i + m)%nat = Some row ->
            scores !! (i + m)%nat = Some cur ->
            v !! (i + m)%nat = Some (cell row T st tn_times cur)).
Proof.
  intros Hall.
  induction tt as [|T rest IH]; intros i scores Hlen Hbound;
    cbn [scan_trains].
  - exists scores. repeat split; [assumption | discriminate].
  - cbn [length] in Hbound.
    rewrite Htest. cbn [getattr rbind].
    rewrite Htest_times. cbn [getkey rbind].
    destruct (lookup_lt_is_Some_2 s i ltac:(lia)) as [row Hrow].
    destruct (lookup_lt_is_Some_2 scores i ltac:(lia)) as [cur Hcur].
    rewrite (scan_tests_eval i T row tn_times Hall Hrow scores cur Hcur).
    cbn [rbind].
    destruct (IH (S i) (<[i := cell row T st tn_times cur]> scores))
      as (v & Hv & Hvlen & Hbefore & Hat).
    { rewrite length_insert. exact Hlen. }
    { lia. }
    exists v. split; [exact Hv|]. split; [exact Hvlen|]. split.
    + intros k Hk. rewrite Hbefore by lia.
      apply list_lookup_insert_ne. lia.
    + intros [|m] T' row' cur' HT' Hrow' Hcur'.
      * rewrite Nat.add_0_r in *. cbn in HT'. injection HT' as <-.
        rewrite Hrow in Hrow'. injection Hrow' as <-.
        rewrite Hcur in Hcur'. injection Hcur' as <-.
        rewrite Hbefore by lia. apply list_lookup_insert_eq. lia.
      * cbn in HT'.
        replace (i + S m)%nat with (S i + m)%nat in * by lia.
        apply (Hat m T' row' cur' HT' Hrow').
        rewrite list_lookup_insert_ne by lia. exact Hcur'.
Qed.

(** The array built by lines 148-155 when all reads are in range: its
    entry at the index of a training time is what the scan of the
    testing-time sequences leaves there, starting from 0. *)
Lemma diagonal_scores_eval (tt_times : list Q) :
  times_ tt_dict = Some tt_times ->
  (length tt_times <= length s)%nat -> Forall (readable s) tn_times ->
  exists v,
    diagonal_scores gat s = Ok v
    /\ length v = length s
    /\ forall i T row,
        tt_times !! i = Some T -> s !! i = Some row ->
        v !! i = Some (cell row T st tn_times 0%Q).
Proof.
  intros Htimes Hlen Hall. unfold diagonal_scores.
  rewrite Htrain. cbn [getattr rbind]. rewrite Htimes. cbn [getkey rbind].
  destruct (scan_trains_eval tt_times Hall 0%nat (np_zeros (length s)))
    as (v & Hv & Hvlen & _ & Hat).
  { apply length_replicate. }
  { lia. }
  exists v. split; [exact Hv|]. split; [exact Hvlen|].
  intros i T row HT Hrow. apply (Hat i T row 0%Q HT Hrow).
  apply lookup_replicate_2. apply lookup_lt_Some in Hrow. exact Hrow.
Qed.
End RaggedPath.

(** The cell after the scan: the last accepted sequence decides. *)
Lemma cell_unchanged (row : list Q) (T st : Q) (tn : list (list Q)) (cur : Q) :
  Forall (fun u => accepted T (nth (nearest u T) u 0%Q) st = false) tn ->
  cell row T st tn cur = cur.
Proof.
  unfold cell. intros Hall.
  induction Hall as [|u tn Hu _ IH]; cbn [fold_left]; [reflexivity|].
  unfold cell_step at 2. rewrite Hu. exact IH.
Qed.

Lemma cell_same_index (row : list Q) (T st : Q) (j : nat)
    (post : list (list Q)) :
  Forall (fun u => accepted T (nth (nearest u T) u 0%Q) st = false
                   \/ nearest u T = j) post ->
  cell row T st post (nth j row 0%Q) = nth j row 0%Q.
Proof.
  unfold cell. intros Hall.
  induction Hall as [|u post Hu _ IH]; cbn [fold_left]; [reflexivity|].
  unfold cell_step at 2.
  destruct Hu as [Hrej| ->]; [rewrite Hrej; exact IH|].
  destruct (accepted T (nth j u 0%Q) st); exact IH.
Qed.

Lemma cell_last_accepted (row : list Q) (T st : Q)
    (pre : list (list Q)) (t : list Q) (post : list (list Q)) (cur : Q) :
  accepted T (nth (nearest t T) t 0%Q) st = true ->
  Forall (fun u => accepted T (nth (nearest u T) u 0%Q) st = false
                   \/ nearest u T = nearest t T) post ->
  cell row T st (pre ++ t :: post) cur = nth (nearest t T) row 0%Q.
Proof.
  intros Hacc Hpost. unfold cell. rewrite fold_left_app. cbn [fold_left].
  unfold cell_step at 2. rewrite Hacc.
  apply (cell_same_index row T st (nearest t T) post Hpost).
Qed.

(** ** The example of the specification *)

Lemma example_diagonal_scores (st : Q) :
  (0 <= st)%Q ->
  diagonal_scores (example_gat st) example_scores = Ok [0.6; 0.9]%Q.
Proof.
  intros Hst.
  destruct (diagonal_scores_eval (example_gat st) example_scores
              (TimesDict (Some [0; 1]%Q) (Some st)) st
              (TimesDict (Some [[0; 1]; [0; 1]]%Q) None)
              [[0; 1]; [0; 1]]%Q eq_refl eq_refl eq_refl eq_refl
              [0; 1]%Q eq_refl)
    as (v & Hv & Hlen & Hat).
  { cbn. lia. }
  { repeat constructor; cbn; try lia; discriminate. }
  rewrite Hv. f_equal.
  pose proof (Hat 0%nat 0%Q [0.6; 0.7]%Q eq_refl eq_refl) as H0.
  pose proof (Hat 1%nat 1%Q [0.5; 0.9]%Q eq_refl eq_refl) as H1.
  unfold cell in H0, H1. cbn [fold_left] in H0, H1.
  unfold cell_step in H0, H1.
  change (nearest [0; 1]%Q 0%Q) with 0%nat in H0.
  change (nearest [0; 1]%Q 1%Q) with 1%nat in H1.
  cbn [nth] in H0, H1.
  rewrite !(accepted_same 0 st Hst) in H0.
  rewrite !(accepted_same 1 st Hst) in H1.
  destruct v as [|a [|b [|c v]]]; try discriminate Hlen.
  cbn in H0, H1. congruence.
Qed.

(** C7: on the example (scores [[0.6,0.7],[0.5,0.9]], training times
    [0,1], testing times [[0,1],[0,1]]) and with a step that is not
    negative, plot_gat_matrix called without [vmin], [vmax] and [tlim]
    hands the color limits 0.5 and 0.9 to [ax.imshow]; the testing-time
    sequences are not all of length one, so plot_gat_diagonal takes the
    nearest-neighbour branch, and it plots the scores [0.6, 0.9]. *)
Theorem spec_example (st : Q) (Hst : (0 <= st)%Q) :
  (forall title ax cmap show colorbar xlabel ylabel tr,
      shown (plot_gat_matrix (example_gat st) title None None None ax cmap
               show colorbar xlabel ylabel tr).2
      = shown tr ++ [Imshow example_scores [0; 1; 0; 1]%Q 0.5%Q 0.9%Q cmap])
  /\ is_diagonal [[0; 1]; [0; 1]]%Q = false
  /\ diagonal_scores (example_gat st) example_scores = Ok [0.6; 0.9]%Q
  /\ forall title xmin xmax ymin ymax ax show color xlabel ylabel legend tr,
      plotted (plot_gat_diagonal (example_gat st) title xmin xmax ymin ymax
                 ax show color xlabel ylabel legend tr).2
      = plotted tr ++ [YVector [0.6; 0.9]%Q].
Proof.
  split; [|split; [reflexivity|split]].
  - intros. apply plot_gat_matrix_shown; reflexivity.
  - apply example_diagonal_scores, Hst.
  - intros.
    pose proof (plot_gat_diagonal_scored (example_gat st) example_scores
                  title xmin xmax ymin ymax ax show color xlabel ylabel
                  legend tr eq_refl) as Hrun.
    unfold diagonal_data in Hrun. cbn [example_gat test_times_ times_
      train_times getattr getkey rbind] in Hrun.
    change (is_diagonal [[0; 1]; [0; 1]]%Q) with false in Hrun.
    rewrite (example_diagonal_scores st Hst) in Hrun. exact Hrun.
Qed.

Lemma spec_example_witness :
  shown (run (plot_gat_matrix (example_gat 1) None None None None None
                "RdBu_r" true true true true)).2
  = [Imshow example_scores [0; 1; 0; 1]%Q 0.5%Q 0.9%Q "RdBu_r"]
  /\ is_diagonal [[0; 1]; [0; 1]]%Q = false
  /\ plotted (run (plot_gat_diagonal (example_gat 1) None None None None
                     None None true "b" true true true)).2
     = [YVector [0.6; 0.9]%Q].
Proof.
  destruct (spec_example 1 ltac:(discriminate))
    as (Hmatrix & Hshape & _ & Hdiagonal).
  split; [apply Hmatrix | split; [exact Hshape | apply Hdiagonal]].
Defined.

(** ** Which score the nearest-neighbour search keeps *)

(** C4: lines 146-147 announce the scores at identical training and testing
    times, but the loop of lines 150-155 scans every testing-time sequence
    for each training time and stores into the same entry each time.  On
    [window_gat] the first testing-time sequence holds the training time 0
    itself, at index 1, yet the score plotted for it is not the entry 0.2
    at index 1 of its score row: the second sequence, scanned later, holds
    0 at index 0 and the entry 0.1 of that index replaces it. *)
Lemma earlier_sequence_overwritten :
  is_diagonal [[-1; 0; 1]; [0; 1; 2]]%Q = false
  /\ [0; 1]%Q !! 0%nat = Some 0%Q
  /\ [-1; 0; 1]%Q ∈ [[-1; 0; 1]; [0; 1; 2]]%Q
  /\ 0%Q ∈ [-1; 0; 1]%Q
  /\ (Qabs (0 - 0) <= 1)%Q
  /\ nearest [-1; 0; 1]%Q 0%Q = 1%nat
  /\ window_scores !! 0%nat = Some [0.1; 0.2; 0.3]%Q
  /\ [0.1; 0.2; 0.3]%Q !! 1%nat = Some 0.2%Q
  /\ plotted (run (plot_gat_diagonal window_gat None None None None None
                     None true "b" true true true)).2
     = [YVector [0.1; 0.5]%Q]
  /\ [0.1; 0.5]%Q !! 0%nat = Some 0.1%Q
  /\ ~ (0.1 == 0.2)%Q.
Proof.
  repeat split; try reflexivity.
  - apply elem_of_cons. left. reflexivity.
  - apply elem_of_cons. right. apply elem_of_cons. left. reflexivity.
  - discriminate.
  - discriminate.
Qed.

(** ** Testing times later than the training time *)

(** C2: the testing time closest to [T] is found by absolute difference,
    but line 154 compares the signed difference [T - t[j]] with the step.
    For [T = 0], the sequence [5, 6] and a step of 1, the closest testing
    time is 5, at distance 5 from [T]; it is accepted all the same and the
    score of its index is stored. *)
Theorem later_testing_time_accepted :
  nearest [5; 6]%Q 0%Q = 0%nat
  /\ ~ (Qabs (0 - 5) <= 1)%Q
  /\ accepted 0 5 1 = true
  /\ scan_one late_gat example_scores 0 0%Q [5; 6]%Q [0; 0]%Q
     = Ok [0.6; 0]%Q.
Proof.
  repeat split; try reflexivity.
  intros Hle. apply Hle. reflexivity.
Qed.

(** C3: on [late_gat] no testing time lies within one step of the training
    times 0 and 1, yet plot_gat_diagonal plots the scores 0.6 and 0.5 for
    them, not 0: the signed comparison of line 154 accepts testing times
    that lie after the training time, however far. *)
Theorem unmatched_time_not_zero :
  is_diagonal [[5; 6]; [5; 6]]%Q = false
  /\ Forall (Forall (fun x => ~ (Qabs (x - 0) <= 1)%Q /\ ~ (Qabs (x - 1) <= 1)%Q))
       [[5; 6]; [5; 6]]%Q
  /\ plotted (run (plot_gat_diagonal late_gat None None None None None None
                     true "b" true true true)).2
     = [YVector [0.6; 0.5]%Q].
Proof.
  split; [reflexivity|]. split; [|reflexivity].
  repeat constructor; intros Hle; apply Hle; reflexivity.
Qed.

(** When every sequence's closest testing time lies more than one step
    before [T], the entry for [T] keeps its initial 0. *)
Lemma diagonal_zero_when_rejected (gat : GAT) (s : list (list Q))
    (tt_dict : times_dict (list Q)) (tt_times : list Q) (st : Q)
    (tn_dict : times_dict (list (list Q))) (tn_times : list (list Q))
    (i : nat) (T : Q) :
  train_times gat = Some tt_dict -> times_ tt_dict = Some tt_times ->
  step tt_dict = Some st ->
  test_times_ gat = Some tn_dict -> times_ tn_dict = Some tn_times ->
  (length tt_times <= length s)%nat -> Forall (readable s) tn_times ->
  tt_times !! i = Some T ->
  Forall (fun u => accepted T (nth (nearest u T) u 0%Q) st = false) tn_times ->
  exists v, diagonal_scores gat s = Ok v /\ v !! i = Some 0%Q.
Proof.
  intros Htrain Htimes Hstep Htest Htest_times Hrows Hread HT Hrej.
  destruct (diagonal_scores_eval gat s tt_dict st tn_dict tn_times
              Htrain Hstep Htest Htest_times tt_times Htimes Hrows Hread)
    as (v & Hv & Hlen & Hat).
  exists v. split; [exact Hv|].
  destruct (lookup_lt_is_Some_2 s i) as [row Hrow].
  { apply lookup_lt_Some in HT. lia. }
  rewrite (Hat i T row HT Hrow). f_equal.
  apply cell_unchanged, Hrej.
Qed.

(** ** Reads of the scores out of range *)

(** An accepted sequence makes line 155 read row [i] at the index found in
    that sequence. *)
Lemma scan_one_accepted (gat : GAT) (s : list (list Q))
    (tt_dict : times_dict (list Q)) (st : Q) (i : nat) (T : Q)
    (t scores : list Q) :
  train_times gat = Some tt_dict -> step tt_dict = Some st ->
  t <> [] ->
  accepted T (nth (nearest t T) t 0%Q) st = true ->
  scan_one gat s i T t scores
  = (row <~ getitem s (Z.of_nat i) ;;
     v <~ getitem row (Z.of_nat (nearest t T)) ;;
     setitem scores i v).
Proof.
  intros Htrain Hstep Hne Hacc. unfold scan_one.
  destruct (nearest_closest t T Hne) as (tj & Htj & _).
  assert (Hargmin : np_argmin (abs_diff t T) = Ok (nearest t T)).
  { destruct t; [congruence | reflexivity]. }
  rewrite Hargmin. cbn [rbind].
  rewrite getitem_nat, Htj. cbn [rbind].
  rewrite Htrain. cbn [getattr rbind]. rewrite Hstep. cbn [getkey rbind].
  rewrite (nth_lookup_Some _ _ _ _ Htj) in Hacc. rewrite Hacc.
  reflexivity.
Qed.

(** ** Results without time descriptors *)






(** ** plot_gat_diagonal in two parts *)

(** plot_gat_diagonal on scored results runs lines 143-155 and then hands
    over to lines 156-177. *)
Lemma plot_gat_diagonal_split (gat : GAT) (s : list (list Q))
    (title : option string) (xmin xmax ymin ymax : option Q)
    (ax : option nat) (show : bool) (color : string)
    (xlabel ylabel legend : bool) (tr : trace) :
  scores_ gat = Some s ->
  plot_gat_diagonal gat title xmin xmax ymin ymax ax show color xlabel
    ylabel legend tr
  = match diagonal_data gat s with
    | Raise e => (Raise e, with_axes ax tr)
    | Ok (scores, tt_times) =>
        diagonal_finish gat title xmin xmax ymin ymax (axes_of ax) show
          color xlabel ylabel legend tt_times scores (with_axes ax tr)
    end.
Proof.
  intros Hs. unfold plot_gat_diagonal, diagonal_data, axes_of. rewrite Hs.
  assert (Hax : forall B (k : axes -> M B),
            (a <- match ax with
                  | None => draw (Subplots 1 1) ;; ret NewAxes
                  | Some id => ret (CallerAxes id)
                  end ;; k a) tr
            = k match ax with None => NewAxes | Some id => CallerAxes id end
                (with_axes ax tr)).
  { intros B k. destruct ax; reflexivity. }
  rewrite Hax. clear Hax.
  destruct (test_times_ gat) as [tn_dict|]; cbn [getattr rbind];
    [rewrite bind_lift_ok | reflexivity].
  destruct (times_ tn_dict) as [tn_times|]; cbn [getkey rbind];
    [rewrite bind_lift_ok | reflexivity].
  set (data := if is_diagonal tn_times then Ok (YMatrix s)
               else rbind (diagonal_scores gat s) (fun v => Ok (YVector v))).
  assert (Hdata : forall tr' : trace,
            (if is_diagonal tn_times then ret (YMatrix s)
             else v <- lift (diagonal_scores gat s) ;; ret (YVector v)) tr'
            = (data, tr')).
  { intros tr'. subst data. destruct (is_diagonal tn_times); [reflexivity|].
    unfold bind, lift. destruct (diagonal_scores gat s); reflexivity. }
  rewrite (bind_eq _ _ _ _ _ (Hdata _)).
  destruct data as [scores|e]; [|reflexivity].
  cbn [rbind].
  destruct (train_times gat) as [tt_dict|]; cbn [getattr rbind];
    [rewrite bind_lift_ok | reflexivity].
  destruct (times_ tt_dict) as [tt_times|]; cbn [getkey rbind];
    [rewrite bind_lift_ok | reflexivity].
  reflexivity.
Qed.

(** Lines 156-177 when the limits can be had and the label too. *)
Lemma diagonal_finish_ok (gat : GAT) (title : option string)
    (xmin xmax ymin ymax : option Q) (a : axes) (show : bool)
    (color : string) (xlabel ylabel legend : bool) (tt_times : list Q)
    (scores : ydata) (lo hi : Q) (tr : trace) :
  bound_is ymin (np_min_y scores) lo ->
  bound_is ymax (np_max_y scores) hi ->
  diagonal_finish gat title xmin xmax ymin ymax a show color xlabel ylabel
    legend tt_times scores tr
  = if ylabel then
      match scorer_ gat with
      | Some scorer =>
          (Ok (FigureOf a),
           tr ++ curve_calls tt_times scores title color
           ++ limit_calls lo hi xmin xmax xlabel
           ++ [SetYlabel ("Classif. score ("
                          +:+ (if contains "roc" scorer then "AUC" else "%")
                          +:+ ")")]
           ++ closing_calls legend show)
      | None =>
          (Raise (AttributeError "scorer_"),
           tr ++ curve_calls tt_times scores title color
           ++ limit_calls lo hi xmin xmax xlabel)
      end
    else
      (Ok (FigureOf a),
       tr ++ curve_calls tt_times scores title color
       ++ limit_calls lo hi xmin xmax xlabel
       ++ closing_calls legend show).
Proof.
  intros Hlo Hhi.
  unfold diagonal_finish, curve_calls, limit_calls, closing_calls.
  destruct Hlo as [->|[-> Hlo]], Hhi as [->|[-> Hhi]];
    rewrite ?Hlo, ?Hhi;
    destruct title, xmin, xmax, xlabel, ylabel, (scorer_ gat), legend, show;
    cbn; rewrite <- ?app_assoc; reflexivity.
Qed.

(** Lines 156-177 when the lower limit cannot be computed. *)
Lemma diagonal_finish_no_min (gat : GAT) (title : option string)
    (xmin xmax ymax : option Q) (a : axes) (show : bool)
    (color : string) (xlabel ylabel legend : bool) (tt_times : list Q)
    (scores : ydata) (e : exn) (tr : trace) :
  np_min_y scores = Raise e ->
  diagonal_finish gat title xmin xmax None ymax a show color xlabel ylabel
    legend tt_times scores tr
  = (Raise e, tr ++ curve_calls tt_times scores title color).
Proof.
  intros Hmin. unfold diagonal_finish, curve_calls.
  destruct title; cbn; rewrite Hmin; cbn; rewrite <- ?app_assoc;
    reflexivity.
Qed.

(** ** Substrings *)

Lemma append_cons (c : Ascii.ascii) (s t : string) :
  String c s +:+ t = String c (s +:+ t).
Proof. reflexivity. Qed.

Lemma prefix_append (needle hay : string) :
  String.prefix needle hay = true <-> exists post, hay = needle +:+ post.
Proof.
  revert hay. induction needle as [|a needle IH]; intros hay.
  - split; [intros _; exists hay; reflexivity|].
    intros _. destruct hay; reflexivity.
  - destruct hay as [|b hay]; cbn.
    + split; [discriminate | intros [post Hpost]; discriminate].
    + destruct (Ascii.ascii_dec a b) as [->|Hne].
      * rewrite IH. split.
        -- intros [post ->]. exists post. reflexivity.
        -- intros [post Hpost]. exists post.
           rewrite append_cons in Hpost. congruence.
      * split; [discriminate|]. intros [post Hpost].
        rewrite append_cons in Hpost. congruence.
Qed.

Lemma contains_unfold (needle hay : string) :
  contains needle hay
  = if String.prefix needle hay then true
    else match hay with
         | EmptyString => false
         | String _ rest => contains needle rest
         end.
Proof. destruct hay; reflexivity. Qed.

(** ['needle' in hay] holds exactly when [hay] has [needle] somewhere
    inside. *)
Lemma contains_substring (needle hay : string) :
  contains needle hay = true
  <-> exists pre post, hay = pre +:+ needle +:+ post.
Proof.
  split.
  - induction hay as [|c hay IH]; rewrite contains_unfold;
      destruct (String.prefix needle _) eqn:Hprefix.
    + intros _. apply prefix_append in Hprefix as [post ->].
      exists EmptyString, post. reflexivity.
    + discriminate.
    + intros _. apply prefix_append in Hprefix as [post ->].
      exists EmptyString, post. reflexivity.
    + intros Hrest. destruct (IH Hrest) as (pre & post & ->).
      exists (String c pre), post. reflexivity.
  - intros (pre & post & ->).
    induction pre as [|c pre IH]; rewrite contains_unfold.
    + assert (Hprefix : String.prefix needle (needle +:+ post) = true)
        by (apply prefix_append; exists post; reflexivity).
      change (EmptyString +:+ needle +:+ post) with (needle +:+ post).
      rewrite Hprefix. reflexivity.
    + rewrite append_cons.
      destruct (String.prefix needle _); [reflexivity | exact IH].
Qed.

(** ** Limits, labels and closing calls of plot_gat_diagonal *)

Lemma np_min1_least (v : list Q) :
  v <> [] -> exists lo, np_min1 v = Ok lo /\ is_least lo v.
Proof.
  destruct v as [|x r]; [congruence|]. intros _.
  exists (min_of x r). split; [reflexivity | apply min_of_least].
Qed.

Lemma np_max1_greatest (v : list Q) :
  v <> [] -> exists hi, np_max1 v = Ok hi /\ is_greatest hi v.
Proof.
  destruct v as [|x r]; [congruence|]. intros _.
  exists (max_of x r). split; [reflexivity | apply max_of_greatest].
Qed.

Lemma np_min_y_least (y : ydata) :
  reducible y -> exists lo, np_min_y y = Ok lo /\ is_least lo (entries y).
Proof.
  destruct y as [m|v]; cbn [reducible np_min_y entries].
  - intros [Hrect Hne]. unfold np_min2, np_asarray2. rewrite Hrect.
    apply np_min1_least, Hne.
  - apply np_min1_least.
Qed.

Lemma np_max_y_greatest (y : ydata) :
  reducible y ->
  exists hi, np_max_y y = Ok hi /\ is_greatest hi (entries y).
Proof.
  destruct y as [m|v]; cbn [reducible np_max_y entries].
  - intros [Hrect Hne]. unfold np_max2, np_asarray2. rewrite Hrect.
    apply np_max1_greatest, Hne.
  - apply np_max1_greatest.
Qed.

(** plot_gat_diagonal once lines 143-155 gave their data and the limits can
    be had. *)
Lemma plot_gat_diagonal_drawn (gat : GAT) (s : list (list Q))
    (title : option string) (xmin xmax ymin ymax : option Q)
    (ax : option nat) (show : bool) (color : string)
    (xlabel ylabel legend : bool) (tr : trace) (scores : ydata)
    (tt_times : list Q) (lo hi : Q) :
  scores_ gat = Some s ->
  diagonal_data gat s = Ok (scores, tt_times) ->
  bound_is ymin (np_min_y scores) lo ->
  bound_is ymax (np_max_y scores) hi ->
  plot_gat_diagonal gat title xmin xmax ymin ymax ax show color xlabel
    ylabel legend tr
  = if ylabel then
      match scorer_ gat with
      | Some scorer =>
          (Ok (FigureOf (axes_of ax)),
           with_axes ax tr ++ curve_calls tt_times scores title color
           ++ limit_calls lo hi xmin xmax xlabel
           ++ [SetYlabel ("Classif. score ("
                          +:+ (if contains "roc" scorer then "AUC" else "%")
                          +:+ ")")]
           ++ closing_calls legend show)
      | None =>
          (Raise (AttributeError "scorer_"),
           with_axes ax tr ++ curve_calls tt_times scores title color
           ++ limit_calls lo hi xmin xmax xlabel)
      end
    else
      (Ok (FigureOf (axes_of ax)),
       with_axes ax tr ++ curve_calls tt_times scores title color
       ++ limit_calls lo hi xmin xmax xlabel
       ++ closing_calls legend show).
Proof.
  intros Hs Hdata Hlo Hhi.
  rewrite (plot_gat_diagonal_split gat s) by exact Hs.
  rewrite Hdata. apply diagonal_finish_ok; assumption.
Qed.

Ltac observe_calls :=
  unfold curve_calls, limit_calls, closing_calls, with_axes;
  repeat match goal with
    | |- context [match ?x with _ => _ end] => is_var x; destruct x
    end;
  rewrite ?omap_app; cbn; rewrite ?app_nil_r; try reflexivity.

(** ** Empty scores and empty times *)

Lemma diagonal_data_identity (gat : GAT) (s : list (list Q))
    (tn_dict : times_dict (list (list Q))) (tn_times : list (list Q))
    (tt_dict : times_dict (list Q)) (tt_times : list Q) :
  test_times_ gat = Some tn_dict -> times_ tn_dict = Some tn_times ->
  Forall (fun t => length t = 1%nat) tn_times ->
  train_times gat = Some tt_dict -> times_ tt_dict = Some tt_times ->
  diagonal_data gat s = Ok (YMatrix s, tt_times).
Proof.
  intros Htest Htest_times Hone Htrain Htrain_times.
  unfold diagonal_data. rewrite Htest. cbn [getattr rbind].
  rewrite Htest_times. cbn [getkey rbind].
  rewrite (proj2 (is_diagonal_iff tn_times) Hone). cbn [rbind].
  rewrite Htrain. cbn [getattr rbind]. rewrite Htrain_times. reflexivity.
Qed.

Lemma np_min2_empty (s : list (list Q)) :
  rectangular s = true -> concat s = [] -> np_min2 s = Raise zero_size.
Proof.
  intros Hrect Hempty. unfold np_min2, np_asarray2.
  rewrite Hrect, Hempty. reflexivity.
Qed.

Lemma np_max2_empty (s : list (list Q)) :
  rectangular s = true -> concat s = [] -> np_max2 s = Raise zero_size.
Proof.
  intros Hrect Hempty. unfold np_max2, np_asarray2.
  rewrite Hrect, Hempty. reflexivity.
Qed.

(** X6: on scores that hold no number, plot_gat_matrix called without
    [vmin] or without [vmax] stops with the ValueError of the reduction of
    an empty array, after [plt.subplots] if no axes were given and without
    any [ax.imshow] call, whatever [tlim] is. *)
Theorem matrix_empty_scores (gat : GAT) (s : list (list Q))
    (vmin vmax : option Q)
    (Hscores : scores_ gat = Some s)
    (Hrect : rectangular s = true) (Hempty : concat s = [])
    (Hdefault : vmin = None \/ vmax = None) :
  forall title tlim ax cmap show colorbar xlabel ylabel tr,
  exists msg,
    plot_gat_matrix gat title vmin vmax tlim ax cmap show colorbar xlabel
      ylabel tr
    = (Raise (ValueError msg), with_axes ax tr).
Proof.
  intros. eexists.
  rewrite (plot_gat_matrix_scored gat s) by exact Hscores.
  unfold matrix_args.
  rewrite (np_min2_empty s Hrect Hempty), (np_max2_empty s Hrect Hempty).
  destruct Hdefault as [-> | ->]; [reflexivity|].
  destruct vmin; reflexivity.
Qed.

Lemma matrix_empty_scores_witness :
  exists msg,
    run (plot_gat_matrix empty_gat None None None (Some [0; 1; 0; 1]%Q) None
           "RdBu_r" true true true true)
    = (Raise (ValueError msg), [Subplots 1 1]).
Proof.
  apply (matrix_empty_scores empty_gat [] None None eq_refl eq_refl eq_refl
           (or_introl eq_refl)
           None (Some [0; 1; 0; 1]%Q) None "RdBu_r" true true true true []).
Defined.

Lemma getitem_head {A} (l : list A) :
  getitem l 0 = match head l with
                | Some x => Ok x
                | None => Raise IndexError
                end.
Proof. destruct l; reflexivity. Qed.

Lemma getitem_tail {A} (l : list A) :
  getitem l (-1) = match last l with
                   | Some x => Ok x
                   | None => Raise IndexError
                   end.
Proof.
  destruct (last l) as [x|] eqn:Hlast; [apply getitem_last, Hlast|].
  apply last_None in Hlast. subst l. reflexivity.
Qed.

(** X7: when [tlim] is not given and there is no training time, no
    testing-time sequence, or the first or the last testing-time sequence
    is empty, plot_gat_matrix stops with IndexError while building the
    default boundaries, before [ax.imshow]. *)
Theorem matrix_default_extent_no_times (gat : GAT) (s : list (list Q))
    (tt_dict : times_dict (list Q)) (tt_times : list Q)
    (tn_dict : times_dict (list (list Q))) (tn_times : list (list Q))
    (vmin vmax : option Q) (lo hi : Q)
    (Hscores : scores_ gat = Some s)
    (Hlo : bound_is vmin (np_min2 s) lo)
    (Hhi : bound_is vmax (np_max2 s) hi)
    (Htrain : train_times gat = Some tt_dict)
    (Htrain_times : times_ tt_dict = Some tt_times)
    (Htest : test_times_ gat = Some tn_dict)
    (Htest_times : times_ tn_dict = Some tn_times)
    (Hnone : tt_times = [] \/ tn_times = [] \/ head tn_times = Some []
             \/ last tn_times = Some []) :
  forall title ax cmap show colorbar xlabel ylabel tr,
    plot_gat_matrix gat title vmin vmax None ax cmap show colorbar xlabel
      ylabel tr
    = (Raise IndexError, with_axes ax tr).
Proof.
  intros.
  rewrite (plot_gat_matrix_scored gat s) by exact Hscores.
  assert (Hext : default_tlim gat = Raise IndexError).
  { unfold default_tlim.
    rewrite Htrain; cbn [getattr rbind]. rewrite Htrain_times; cbn [getkey rbind].
    rewrite Htest; cbn [getattr rbind]. rewrite Htest_times; cbn [getkey rbind].
    rewrite !getitem_head, !getitem_tail.
    destruct (head tn_times) as [tn_first|] eqn:Hfirst; [|reflexivity].
    cbn [rbind]. rewrite getitem_head.
    destruct (head tn_first) as [x0|] eqn:Hx0; [|reflexivity].
    cbn [rbind].
    destruct (last tn_times) as [tn_last|] eqn:Hlast; [|reflexivity].
    cbn [rbind]. rewrite getitem_tail.
    destruct (last tn_last) as [x1|] eqn:Hx1; [|reflexivity].
    cbn [rbind].
    destruct (head tt_times) as [y0|] eqn:Hy0; [|reflexivity].
    exfalso.
    destruct Hnone as [-> | [-> | [Hf | Hl]]]; try discriminate.
    - injection Hf as ->. discriminate.
    - injection Hl as ->. discriminate. }
  unfold matrix_args. rewrite Hext.
  destruct Hlo as [->|[-> ->]], Hhi as [->|[-> ->]]; reflexivity.
Qed.

Lemma matrix_default_extent_no_times_witness :
  run (plot_gat_matrix gap_gat None None None None None "RdBu_r" true true
         true true)
  = (Raise IndexError, [Subplots 1 1]).
Proof.
  apply (matrix_default_extent_no_times gap_gat example_scores
           (TimesDict (Some [0; 1]%Q) (Some 1%Q)) [0; 1]%Q
           (TimesDict (Some [[0; 1]; []]%Q) None) [[0; 1]; []]%Q
           None None 0.5%Q 0.9%Q eq_refl
           (or_intror (conj eq_refl eq_refl))
           (or_intror (conj eq_refl eq_refl))
           eq_refl eq_refl eq_refl eq_refl
           (or_intror (or_intror (or_intror eq_refl)))
           None None "RdBu_r" true true true true []).
Defined.

(** ** More on the nearest-neighbour search *)

(** X8: the shape test of line 143 succeeds exactly when every
    testing-time sequence has one element; in particular it succeeds when
    there is no sequence at all. *)
Theorem shape_test_singletons (tn_times : list (list Q)) :
  (is_diagonal tn_times = true
   <-> Forall (fun t => length t = 1%nat) tn_times)
  /\ is_diagonal [] = true.
Proof. split; [apply is_diagonal_iff | reflexivity]. Qed.

Lemma is_diagonal_empty_sequence (tn_times : list (list Q)) :
  [] ∈ tn_times -> is_diagonal tn_times = false.
Proof.
  intros Hin. destruct (is_diagonal tn_times) eqn:Hd; [|reflexivity].
  apply is_diagonal_iff in Hd. rewrite Forall_forall in Hd.
  specialize (Hd [] Hin). discriminate.
Qed.

Lemma argmin_from_first (l : list Q) (best : nat) (bv : Q) (k : nat) :
  (best < k)%nat ->
  (argmin_from best bv k l <> best -> (min_of bv l < bv)%Q)
  /\ forall j y,
      (k + j < argmin_from best bv k l)%nat -> l !! j = Some y ->
      (min_of bv l < y)%Q.
Proof.
  revert best bv k.
  induction l as [|x r IH]; intros best bv k Hbest;
    cbn [argmin_from].
  - split; [congruence | intros j y Hj; lia].
  - unfold min_of. cbn [fold_left]. fold (min_of x r). fold (min_of bv r).
    destruct (Qlt_bool x bv) eqn:Hlt.
    + apply Qlt_bool_true in Hlt.
      fold (min_of (if Qlt_bool x bv then x else bv) r).
      destruct (IH k x (S k) ltac:(lia)) as [Hmoved Hbefore].
      destruct (min_of_least x r) as [_ Hall].
      apply Forall_cons in Hall as [Hmin _].
      split.
      * intros _. eapply Qle_lt_trans; [exact Hmin | exact Hlt].
      * intros [|j] y Hj Hy.
        -- injection Hy as <-. apply Hmoved. lia.
        -- apply (Hbefore j y); [lia | exact Hy].
    + apply Qlt_bool_false in Hlt.
      destruct (IH best bv (S k) ltac:(lia)) as [Hmoved Hbefore].
      split; [exact Hmoved|].
      intros [|j] y Hj Hy.
      * injection Hy as <-.
        eapply Qlt_le_trans; [apply Hmoved; lia | exact Hlt].
      * apply (Hbefore j y); [lia | exact Hy].
Qed.

(** Every entry before the index [argmin] returns is greater than the
    entry at that index. *)
Lemma argmin_first (v : list Q) (k : nat) (y m : Q) :
  v !! argmin v = Some m -> (k < argmin v)%nat -> v !! k = Some y ->
  (m < y)%Q.
Proof.
  destruct v as [|x r]; [discriminate|]. unfold argmin.
  intros Hm Hk Hy.
  assert (Hmin : (x :: r) !! argmin_from 0 x 1 r = Some (min_of x r)).
  { destruct (argmin_from_spec r 0 x 1) as [[Hz _]|[Hle Hlook]].
    - rewrite Hz in Hk. lia.
    - replace (argmin_from 0 x 1 r) with (S (argmin_from 0 x 1 r - 1))
        by lia.
      exact Hlook. }
  rewrite Hmin in Hm. injection Hm as <-.
  destruct (argmin_from_first r 0 x 1 ltac:(lia)) as [Hmoved Hbefore].
  destruct k as [|k].
  - injection Hy as <-. apply Hmoved. lia.
  - apply (Hbefore k y); [lia | exact Hy].
Qed.

(** X9: among the testing times of a sequence that are closest to [T], the
    search of line 152 takes the one of lowest index: every testing time at
    an index below the one found is farther from [T]. *)
Theorem nearest_lowest_index (t : list Q) (T : Q) (k : nat) (x : Q)
    (Hk : (k < nearest t T)%nat) (Hx : t !! k = Some x) :
  exists tj,
    t !! nearest t T = Some tj /\ (Qabs (tj - T) < Qabs (x - T))%Q.
Proof.
  assert (Hne : t <> []) by (intros ->; discriminate).
  destruct (nearest_closest t T Hne) as (tj & Htj & _).
  exists tj. split; [exact Htj|].
  apply (argmin_first (abs_diff t T) k);
    [| exact Hk | unfold abs_diff; rewrite list_lookup_fmap, Hx; reflexivity].
  unfold abs_diff. rewrite list_lookup_fmap.
  fold (abs_diff t T). fold (nearest t T). rewrite Htj. reflexivity.
Qed.

Lemma nearest_lowest_index_witness :
  exists tj,
    [3; 0; 2]%Q !! nearest [3; 0; 2]%Q 1%Q = Some tj
    /\ (Qabs (tj - 1) < Qabs (3 - 1))%Q.
Proof.
  apply (nearest_lowest_index [3; 0; 2]%Q 1%Q 0%nat 3%Q);
    [vm_compute; lia | reflexivity].
Defined.

(** The index [argmin] returns when one entry is less than all others. *)
Lemma argmin_unique (v : list Q) (i : nat) (x : Q) :
  v !! i = Some x ->
  (forall k y, k <> i -> v !! k = Some y -> (x < y)%Q) ->
  argmin v = i.
Proof.
  intros Hx Hless.
  destruct (argmin_least v) as (m & Hm & _ & Hall).
  { intros ->. discriminate. }
  destruct (decide (argmin v = i)) as [Heq|Hne]; [exact Heq|].
  exfalso. specialize (Hless (argmin v) m Hne Hm).
  rewrite Forall_forall in Hall.
  specialize (Hall x (list_elem_of_lookup_2 _ _ _ Hx)).
  apply (Qlt_not_le _ _ Hless Hall).
Qed.

(** On a grid of pairwise different times, the time at index [i] is found
    at index [i]. *)
Lemma nearest_on_grid (tt_times : list Q) (i : nat) (T : Q) :
  distinct_times tt_times -> tt_times !! i = Some T ->
  nearest tt_times T = i.
Proof.
  intros Hdistinct HT. unfold nearest.
  apply (argmin_unique _ i (Qabs (T - T))).
  - unfold abs_diff. rewrite list_lookup_fmap, HT. reflexivity.
  - intros k y Hk Hy. unfold abs_diff in Hy.
    rewrite list_lookup_fmap in Hy.
    destruct (tt_times !! k) as [z|] eqn:Hz; [|discriminate].
    change (Some (Qabs (z - T)) = Some y) in Hy.
    assert (Hyz : Qabs (z - T) = y) by congruence. subst y.
    assert (Hzero : (Qabs (T - T) == 0)%Q).
    { unfold Qminus. rewrite Qplus_opp_r. reflexivity. }
    rewrite Hzero.
    destruct (Qlt_le_dec 0 (Qabs (z - T))) as [Hpos|Hnonpos]; [exact Hpos|].
    exfalso. apply (Hdistinct k i z T Hk Hz HT).
    assert (Habs : (Qabs (z - T) == 0)%Q).
    { apply Qle_antisym; [exact Hnonpos | apply Qabs_nonneg]. }
    assert (Hdiff : (z - T == 0)%Q).
    { apply Qle_antisym.
      - rewrite <- Habs. apply Qle_Qabs.
      - apply Qabs_Qle_condition in Hnonpos. destruct Hnonpos as [Hlow _].
        exact Hlow. }
    rewrite <- (Qplus_0_l T). rewrite <- Hdiff. ring.
Qed.

Lemma cell_all_same_index (row : list Q) (T st : Q) (j : nat)
    (tn : list (list Q)) (cur : Q) :
  tn <> [] ->
  Forall (fun u => accepted T (nth (nearest u T) u 0%Q) st = true
                   /\ nearest u T = j) tn ->
  cell row T st tn cur = nth j row 0%Q.
Proof.
  intros Hne Hall. destruct tn as [|u tn]; [congruence|].
  apply Forall_cons in Hall as [[Hacc Hj] Hrest].
  unfold cell. cbn [fold_left]. unfold cell_step at 2.
  rewrite Hacc, Hj.
  apply (cell_same_index row T st j tn).
  eapply Forall_impl; [exact Hrest|]. intros u' [_ Hu']. right. exact Hu'.
Qed.

Lemma diagonal_data_ragged (gat : GAT) (s : list (list Q))
    (tn_dict : times_dict (list (list Q))) (tn_times : list (list Q))
    (tt_dict : times_dict (list Q)) (tt_times : list Q)
    (r : result (list Q)) :
  test_times_ gat = Some tn_dict -> times_ tn_dict = Some tn_times ->
  is_diagonal tn_times = false ->
  train_times gat = Some tt_dict -> times_ tt_dict = Some tt_times ->
  diagonal_scores gat s = r ->
  diagonal_data gat s = match r with
                        | Ok v => Ok (YVector v, tt_times)
                        | Raise e => Raise e
                        end.
Proof.
  intros Htest Htest_times Hragged Htrain Htrain_times Hr.
  unfold diagonal_data. rewrite Htest. cbn [getattr rbind].
  rewrite Htest_times. cbn [getkey rbind]. rewrite Hragged, Hr.
  destruct r as [v|e]; [|reflexivity]. cbn [rbind].
  rewrite Htrain. cbn [getattr rbind]. rewrite Htrain_times. reflexivity.
Qed.

(** X10: on a full matrix whose testing times are, for every training
    time, the training times themselves (pairwise different), with a step
    that is not negative and scores of at least that size,
    plot_gat_diagonal plots the diagonal: the entry for the training time
    of index [i] is [scores_[i][i]]. *)
Theorem diagonal_of_full_matrix (gat : GAT) (s : list (list Q))
    (tt_dict : times_dict (list Q)) (tt_times : list Q) (st : Q)
    (tn_dict : times_dict (list (list Q))) (tn_times : list (list Q))
    (Hscores : scores_ gat = Some s)
    (Htrain : train_times gat = Some tt_dict)
    (Htrain_times : times_ tt_dict = Some tt_times)
    (Hstep : step tt_dict = Some st) (Hst : (0 <= st)%Q)
    (Htest : test_times_ gat = Some tn_dict)
    (Htest_times : times_ tn_dict = Some tn_times)
    (Hragged : is_diagonal tn_times = false)
    (Hgrid : Forall (fun u => u = tt_times) tn_times)
    (Hdistinct : distinct_times tt_times)
    (Hrows : (length tt_times <= length s)%nat)
    (Hcols : Forall (fun row => (length tt_times <= length row)%nat) s) :
  exists v,
    diagonal_scores gat s = Ok v
    /\ (forall i row x,
          (i < length tt_times)%nat -> s !! i = Some row ->
          row !! i = Some x -> v !! i = Some x)
    /\ forall title xmin xmax ymin ymax ax show color xlabel ylabel legend tr,
        plotted (plot_gat_diagonal gat title xmin xmax ymin ymax ax show
                   color xlabel ylabel legend tr).2
        = plotted tr ++ [YVector v].
Proof.
  assert (Hne : tn_times <> []) by (intros ->; discriminate).
  assert (Hv : exists v,
             diagonal_scores gat s = Ok v
             /\ forall i row x,
                 (i < length tt_times)%nat -> s !! i = Some row ->
                 row !! i = Some x -> v !! i = Some x).
  { destruct (decide (tt_times = [])) as [->|Htt].
    - exists (np_zeros (length s)). split; [|cbn; intros; lia].
      unfold diagonal_scores. rewrite Htrain. cbn [getattr rbind].
      rewrite Htrain_times. reflexivity.
    - assert (Hread : Forall (readable s) tn_times).
      { eapply Forall_impl; [exact Hgrid|]. intros u ->. split; assumption. }
      destruct (diagonal_scores_eval gat s tt_dict st tn_dict tn_times
                  Htrain Hstep Htest Htest_times tt_times Htrain_times Hrows
                  Hread)
        as (v & Hv & Hlen & Hat).
      exists v. split; [exact Hv|].
      intros i row x Hi Hrow Hx.
      destruct (lookup_lt_is_Some_2 tt_times i Hi) as [T HT].
      rewrite (Hat i T row HT Hrow). f_equal.
      rewrite (cell_all_same_index row T st i tn_times 0%Q Hne).
      + apply nth_lookup_Some, Hx.
      + eapply Forall_impl; [exact Hgrid|]. intros u ->.
        rewrite (nearest_on_grid tt_times i T Hdistinct HT).
        rewrite (nth_lookup_Some _ _ _ _ HT).
        split; [apply accepted_same, Hst | reflexivity]. }
  destruct Hv as (v & Hv & Hdiag).
  exists v. split; [exact Hv|]. split; [exact Hdiag|].
  intros.
  pose proof (plot_gat_diagonal_scored gat s title xmin xmax ymin ymax ax
                show color xlabel ylabel legend tr Hscores) as Hrun.
  rewrite (diagonal_data_ragged gat s tn_dict tn_times tt_dict tt_times
             (Ok v)) in Hrun by assumption.
  exact Hrun.
Qed.

Lemma diagonal_of_full_matrix_witness :
  exists v,
    diagonal_scores (example_gat 1) example_scores = Ok v
    /\ (forall i row x,
          (i < length [0; 1]%Q)%nat -> example_scores !! i = Some row ->
          row !! i = Some x -> v !! i = Some x)
    /\ forall title xmin xmax ymin ymax ax show color xlabel ylabel legend tr,
        plotted (plot_gat_diagonal (example_gat 1) title xmin xmax ymin ymax
                   ax show color xlabel ylabel legend tr).2
        = plotted tr ++ [YVector v].
Proof.
  apply (diagonal_of_full_matrix (example_gat 1) example_scores
           (TimesDict (Some [0; 1]%Q) (Some 1%Q)) [0; 1]%Q 1%Q
           (TimesDict (Some [[0; 1]; [0; 1]]%Q) None) [[0; 1]; [0; 1]]%Q
           eq_refl eq_refl eq_refl eq_refl ltac:(discriminate) eq_refl
           eq_refl eq_refl ltac:(repeat constructor)).
  - intros [|[|[|i]]] [|[|[|j]]] x y Hne Hx Hy; try discriminate;
      try congruence; injection Hx as <-; injection Hy as <-; discriminate.
  - cbn. lia.
  - repeat constructor; cbn; lia.
Defined.

Lemma scan_tests_app (gat : GAT) (s : list (list Q)) (i : nat) (T : Q)
    (tn1 tn2 : list (list Q)) (scores : list Q) :
  scan_tests gat s i T (tn1 ++ tn2) scores
  = (scores' <~ scan_tests gat s i T tn1 scores ;;
     scan_tests gat s i T tn2 scores').
Proof.
  revert scores. induction tn1 as [|t tn1 IH]; intros scores;
    cbn [scan_tests app rbind]; [reflexivity|].
  destruct (scan_one gat s i T t scores) as [scores'|e]; cbn [rbind];
    [apply IH | reflexivity].
Qed.

Lemma scan_trains_app (gat : GAT) (s : list (list Q)) (tt1 tt2 : list Q) :
  forall (i : nat) (scores : list Q),
    scan_trains gat s i (tt1 ++ tt2) scores
    = (scores' <~ scan_trains gat s i tt1 scores ;;
       scan_trains gat s (i + length tt1) tt2 scores').
Proof.
  induction tt1 as [|T tt1 IH]; intros i scores;
    cbn [scan_trains app rbind length].
  - rewrite Nat.add_0_r. reflexivity.
  - destruct (getattr "test_times_" (test_times_ gat)) as [tn_dict|e];
      cbn [rbind]; [|reflexivity].
    destruct (getkey "times_" (times_ tn_dict)) as [tn_times|e];
      cbn [rbind]; [|reflexivity].
    destruct (scan_tests gat s i T tn_times scores) as [scores'|e];
      cbn [rbind]; [|reflexivity].
    rewrite IH. replace (S i + length tt1)%nat with (i + S (length tt1))%nat
      by lia.
    reflexivity.
Qed.

(** The loop over the training times leaves the entries beyond them as they
    were. *)
Lemma scan_trains_beyond (gat : GAT) (s : list (list Q))
    (tt_dict : times_dict (list Q)) (st : Q)
    (tn_dict : times_dict (list (list Q))) (tn_times : list (list Q))
    (tt : list Q) :
  train_times gat = Some tt_dict -> step tt_dict = Some st ->
  test_times_ gat = Some tn_dict -> times_ tn_dict = Some tn_times ->
  Forall (readable s) tn_times ->
  forall (i : nat) (scores v : list Q),
    length scores = length s -> (i + length tt <= length s)%nat ->
    scan_trains gat s i tt scores = Ok v ->
    forall k, (i + length tt <= k)%nat -> v !! k = scores !! k.
Proof.
  intros Htrain Hstep Htest Htest_times Hread.
  induction tt as [|T rest IH]; intros i scores v Hlen Hbound Hv k Hk;
    cbn [scan_trains length] in *.
  - injection Hv as <-. reflexivity.
  - rewrite Htest in Hv. cbn [getattr rbind] in Hv.
    rewrite Htest_times in Hv. cbn [getkey rbind] in Hv.
    destruct (lookup_lt_is_Some_2 s i ltac:(lia)) as [row Hrow].
    destruct (lookup_lt_is_Some_2 scores i ltac:(lia)) as [cur Hcur].
    rewrite (scan_tests_eval gat s tt_dict st Htrain Hstep i T row tn_times
               Hread Hrow scores cur Hcur) in Hv.
    cbn [rbind] in Hv.
    rewrite (IH (S i) (<[i := cell row T st tn_times cur]> scores) v);
      [| rewrite length_insert; exact Hlen | lia | exact Hv | lia].
    apply list_lookup_insert_ne. lia.
Qed.

(** ** Inputs the nearest-neighbour search stops on *)

Lemma plot_gat_diagonal_raises (gat : GAT) (s : list (list Q))
    (tn_dict : times_dict (list (list Q))) (tn_times : list (list Q))
    (tt_dict : times_dict (list Q)) (tt_times : list Q) (e : exn) :
  scores_ gat = Some s ->
  test_times_ gat = Some tn_dict -> times_ tn_dict = Some tn_times ->
  is_diagonal tn_times = false ->
  train_times gat = Some tt_dict -> times_ tt_dict = Some tt_times ->
  diagonal_scores gat s = Raise e ->
  forall title xmin xmax ymin ymax ax show color xlabel ylabel legend tr,
    plot_gat_diagonal gat title xmin xmax ymin ymax ax show color xlabel
      ylabel legend tr
    = (Raise e, with_axes ax tr).
Proof.
  intros Hscores Htest Htest_times Hragged Htrain Htrain_times Hraise.
  intros.
  rewrite (plot_gat_diagonal_split gat s) by exact Hscores.
  rewrite (diagonal_data_ragged gat s tn_dict tn_times tt_dict tt_times
             (Raise e)) by assumption.
  reflexivity.
Qed.

(** X13: an empty testing-time sequence stops the nearest-neighbour branch:
    with at least one training time and one score row, and the sequences
    before the empty one readable, plot_gat_diagonal raises the ValueError
    of [argmin] on an empty array before [ax.plot]. *)
Theorem diagonal_empty_sequence (gat : GAT) (s : list (list Q))
    (tt_dict : times_dict (list Q)) (T : Q) (rest : list Q) (st : Q)
    (tn_dict : times_dict (list (list Q))) (pre post : list (list Q))
    (row : list Q)
    (Hscores : scores_ gat = Some s)
    (Htrain : train_times gat = Some tt_dict)
    (Htrain_times : times_ tt_dict = Some (T :: rest))
    (Hstep : step tt_dict = Some st)
    (Htest : test_times_ gat = Some tn_dict)
    (Htest_times : times_ tn_dict = Some (pre ++ [] :: post))
    (Hrow : s !! 0%nat = Some row)
    (Hread : Forall (readable s) pre) :
  exists msg,
    diagonal_scores gat s = Raise (ValueError msg)
    /\ forall title xmin xmax ymin ymax ax show color xlabel ylabel legend tr,
        plot_gat_diagonal gat title xmin xmax ymin ymax ax show color
          xlabel ylabel legend tr
        = (Raise (ValueError msg), with_axes ax tr).
Proof.
  eexists.
  assert (Hraise : diagonal_scores gat s
                   = Raise (ValueError
                              "attempt to get argmin of an empty sequence")).
  { unfold diagonal_scores. rewrite Htrain. cbn [getattr rbind].
    rewrite Htrain_times. cbn [getkey rbind scan_trains].
    rewrite Htest. cbn [getattr rbind]. rewrite Htest_times.
    cbn [getkey rbind]. rewrite scan_tests_app.
    rewrite (scan_tests_eval gat s tt_dict st Htrain Hstep 0 T row pre
               Hread Hrow (np_zeros (length s)) 0%Q).
    - reflexivity.
    - apply lookup_replicate_2. apply lookup_lt_Some in Hrow. exact Hrow. }
  split; [exact Hraise|].
  apply (plot_gat_diagonal_raises gat s tn_dict (pre ++ [] :: post) tt_dict
           (T :: rest)); try assumption.
  apply is_diagonal_empty_sequence. apply elem_of_app. right. left.
Qed.

Lemma diagonal_empty_sequence_witness :
  exists msg,
    diagonal_scores gap_gat example_scores = Raise (ValueError msg)
    /\ forall title xmin xmax ymin ymax ax show color xlabel ylabel legend tr,
        plot_gat_diagonal gap_gat title xmin xmax ymin ymax ax show color
          xlabel ylabel legend tr
        = (Raise (ValueError msg), with_axes ax tr).
Proof.
  apply (diagonal_empty_sequence gap_gat example_scores
           (TimesDict (Some [0; 1]%Q) (Some 1%Q)) 0%Q [1%Q] 1%Q
           (TimesDict (Some [[0; 1]; []]%Q) None) [[0; 1]%Q] []
           [0.6; 0.7]%Q eq_refl eq_refl eq_refl eq_refl eq_refl eq_refl
           eq_refl).
  repeat constructor; cbn; try lia; discriminate.
Defined.

(** X14: the step is read at line 154 for the first testing-time sequence
    of the first training time.  Without the key ['step'], and with a
    training time and a first sequence that is not empty, the
    nearest-neighbour branch raises KeyError before [ax.plot]. *)
Theorem diagonal_missing_step (gat : GAT) (s : list (list Q))
    (tt_dict : times_dict (list Q)) (T : Q) (rest : list Q)
    (tn_dict : times_dict (list (list Q))) (t : list Q)
    (tn : list (list Q))
    (Hscores : scores_ gat = Some s)
    (Htrain : train_times gat = Some tt_dict)
    (Htrain_times : times_ tt_dict = Some (T :: rest))
    (Hstep : step tt_dict = None)
    (Htest : test_times_ gat = Some tn_dict)
    (Htest_times : times_ tn_dict = Some (t :: tn))
    (Hragged : is_diagonal (t :: tn) = false)
    (Hne : t <> []) :
  diagonal_scores gat s = Raise (KeyError "step")
  /\ forall title xmin xmax ymin ymax ax show color xlabel ylabel legend tr,
      plot_gat_diagonal gat title xmin xmax ymin ymax ax show color
        xlabel ylabel legend tr
      = (Raise (KeyError "step"), with_axes ax tr).
Proof.
  assert (Hraise : diagonal_scores gat s = Raise (KeyError "step")).
  { unfold diagonal_scores. rewrite Htrain. cbn [getattr rbind].
    rewrite Htrain_times. cbn [getkey rbind scan_trains].
    rewrite Htest. cbn [getattr rbind]. rewrite Htest_times.
    cbn [getkey rbind scan_tests]. unfold scan_one.
    destruct (nearest_closest t T Hne) as (tj & Htj & _).
    assert (Hargmin : np_argmin (abs_diff t T) = Ok (nearest t T)).
    { destruct t; [congruence | reflexivity]. }
    rewrite Hargmin. cbn [rbind]. rewrite getitem_nat, Htj. cbn [rbind].
    rewrite Htrain. cbn [getattr rbind]. rewrite Hstep. reflexivity. }
  split; [exact Hraise|].
  apply (plot_gat_diagonal_raises gat s tn_dict (t :: tn) tt_dict
           (T :: rest)); assumption.
Qed.

Lemma diagonal_missing_step_witness :
  run (plot_gat_diagonal stepless_gat None None None None None None true
         "b" true true true)
  = (Raise (KeyError "step"), [Subplots 1 1]).
Proof.
  apply (diagonal_missing_step stepless_gat example_scores
           (TimesDict (Some [0; 1]%Q) None) 0%Q [1%Q]
           (TimesDict (Some [[0; 1]; [0; 1]]%Q) None) [0; 1]%Q [[0; 1]%Q]
           eq_refl eq_refl eq_refl eq_refl eq_refl eq_refl eq_refl
           ltac:(discriminate)).
Defined.

Lemma scan_one_rejected (gat : GAT) (s : list (list Q))
    (tt_dict : times_dict (list Q)) (st : Q) (i : nat) (T : Q)
    (t scores : list Q) :
  train_times gat = Some tt_dict -> step tt_dict = Some st ->
  t <> [] ->
  accepted T (nth (nearest t T) t 0%Q) st = false ->
  scan_one gat s i T t scores = Ok scores.
Proof.
  intros Htrain Hstep Hne Hrej. unfold scan_one.
  destruct (nearest_closest t T Hne) as (tj & Htj & _).
  assert (Hargmin : np_argmin (abs_diff t T) = Ok (nearest t T)).
  { destruct t; [congruence | reflexivity]. }
  rewrite Hargmin. cbn [rbind].
  rewrite getitem_nat, Htj. cbn [rbind].
  rewrite Htrain. cbn [getattr rbind]. rewrite Hstep. cbn [getkey rbind].
  rewrite (nth_lookup_Some _ _ _ _ Htj) in Hrej. rewrite Hrej.
  reflexivity.
Qed.

(** A training time without a score row: the first accepted sequence makes
    line 155 read a row that does not exist. *)
Lemma scan_tests_no_row (gat : GAT) (s : list (list Q))
    (tt_dict : times_dict (list Q)) (st : Q) (i : nat) (T : Q)
    (tn : list (list Q)) :
  train_times gat = Some tt_dict -> step tt_dict = Some st ->
  s !! i = None -> Forall (fun u => u <> []) tn ->
  Exists (fun u => accepted T (nth (nearest u T) u 0%Q) st = true) tn ->
  forall scores, scan_tests gat s i T tn scores = Raise IndexError.
Proof.
  intros Htrain Hstep Hrow Hne Hex.
  induction tn as [|u tn IH]; intros scores; [inversion Hex|].
  apply Forall_cons in Hne as [Hu Htn]. cbn [scan_tests].
  destruct (accepted T (nth (nearest u T) u 0%Q) st) eqn:Hacc.
  - rewrite (scan_one_accepted gat s tt_dict st i T u scores Htrain Hstep
               Hu Hacc).
    rewrite getitem_nat, Hrow. reflexivity.
  - rewrite (scan_one_rejected gat s tt_dict st i T u scores Htrain Hstep
               Hu Hacc).
    cbn [rbind]. apply IH; [exact Htn|].
    apply Exists_cons in Hex as [Hhere|Hlater]; [congruence | exact Hlater].
Qed.

(** ** plt.show *)

(** X16: with [show] false neither function ever calls [plt.show],
    whatever the results object and the other arguments are and whether or
    not the call ends in an exception. *)
Theorem show_false_never_shows (gat : GAT) (tr : trace) :
  (forall title vmin vmax tlim ax cmap colorbar xlabel ylabel,
      omap show_of
        (plot_gat_matrix gat title vmin vmax tlim ax cmap false colorbar
           xlabel ylabel tr).2
      = omap show_of tr)
  /\ (forall title xmin xmax ymin ymax ax color xlabel ylabel legend,
        omap show_of
          (plot_gat_diagonal gat title xmin xmax ymin ymax ax false color
             xlabel ylabel legend tr).2
        = omap show_of tr).
Proof.
  split; intros.
  - assert (Hquiet : quiet show_of
                       (plot_gat_matrix gat title vmin vmax tlim ax cmap
                          false colorbar xlabel ylabel)).
    { unfold plot_gat_matrix. cbn [when]. quiet_solve. }
    apply Hquiet.
  - assert (Hquiet : quiet show_of
                       (plot_gat_diagonal gat title xmin xmax ymin ymax ax
                          false color xlabel ylabel legend)).
    { unfold plot_gat_diagonal. cbn [when]. quiet_solve. }
    apply Hquiet.
Qed.


(** ** Where plot_gat_diagonal can stop *)

Lemma np_min_y_ok (y : ydata) (lo : Q) :
  np_min_y y = Ok lo -> is_least lo (entries y).
Proof.
  destruct y as [m|v]; cbn [np_min_y entries]; unfold np_min2, np_asarray2.
  - destruct (rectangular m); [|discriminate]. cbn [rbind].
    destruct (concat m) as [|x r]; [discriminate|].
    intros [= <-]. apply min_of_least.
  - destruct v as [|x r]; [discriminate|].
    intros [= <-]. apply min_of_least.
Qed.

Lemma np_max_y_ok (y : ydata) (hi : Q) :
  np_max_y y = Ok hi -> is_greatest hi (entries y).
Proof.
  destruct y as [m|v]; cbn [np_max_y entries]; unfold np_max2, np_asarray2.
  - destruct (rectangular m); [|discriminate]. cbn [rbind].
    destruct (concat m) as [|x r]; [discriminate|].
    intros [= <-]. apply max_of_greatest.
  - destruct v as [|x r]; [discriminate|].
    intros [= <-]. apply max_of_greatest.
Qed.

(** Lines 156-177 either stop on a limit that cannot be computed, after the
    calls of lines 156-160, or have both limits. *)
Lemma diagonal_finish_limits (gat : GAT) (title : option string)
    (xmin xmax ymin ymax : option Q) (a : axes) (show : bool)
    (color : string) (xlabel ylabel legend : bool) (tt_times : list Q)
    (scores : ydata) (tr : trace) :
  (exists e,
      diagonal_finish gat title xmin xmax ymin ymax a show color xlabel
        ylabel legend tt_times scores tr
      = (Raise e, tr ++ curve_calls tt_times scores title color))
  \/ (exists lo hi,
        bound_is ymin (np_min_y scores) lo
        /\ bound_is ymax (np_max_y scores) hi).
Proof.
  unfold bound_is.
  destruct ymin as [lo|], ymax as [hi|];
    destruct (np_min_y scores) as [lo'|e] eqn:Hmin;
    destruct (np_max_y scores) as [hi'|e'] eqn:Hmax;
    try (right; eexists _, _; split; [first [left; reflexivity
                                            | right; split; reflexivity]
                                     | first [left; reflexivity
                                             | right; split; reflexivity]]);
    left; eexists; unfold diagonal_finish, curve_calls;
    destruct title; cbn; rewrite ?Hmin, ?Hmax; cbn;
    rewrite <- ?app_assoc; reflexivity.
Qed.

(** The four ways a call of plot_gat_diagonal goes: no scores, no data from
    lines 143-155, no limits, or the calls from the limits on. *)
Lemma plot_gat_diagonal_cases (gat : GAT) (title : option string)
    (xmin xmax ymin ymax : option Q) (ax : option nat) (show : bool)
    (color : string) (xlabel ylabel legend : bool) (tr : trace) :
  (exists e,
      plot_gat_diagonal gat title xmin xmax ymin ymax ax show color xlabel
        ylabel legend tr
      = (Raise e, tr))
  \/ (exists e,
        plot_gat_diagonal gat title xmin xmax ymin ymax ax show color xlabel
          ylabel legend tr
        = (Raise e, with_axes ax tr))
  \/ (exists e s scores tt_times,
        scores_ gat = Some s
        /\ diagonal_data gat s = Ok (scores, tt_times)
        /\ plot_gat_diagonal gat title xmin xmax ymin ymax ax show color
             xlabel ylabel legend tr
           = (Raise e,
              with_axes ax tr ++ curve_calls tt_times scores title color))
  \/ (exists s scores tt_times lo hi,
        scores_ gat = Some s
        /\ diagonal_data gat s = Ok (scores, tt_times)
        /\ bound_is ymin (np_min_y scores) lo
        /\ bound_is ymax (np_max_y scores) hi).
Proof.
  destruct (scores_ gat) as [s|] eqn:Hscores.
  - rewrite (plot_gat_diagonal_split gat s) by exact Hscores.
    destruct (diagonal_data gat s) as [[scores tt_times]|e] eqn:Hdata.
    + destruct (diagonal_finish_limits gat title xmin xmax ymin ymax
                  (axes_of ax) show color xlabel ylabel legend tt_times
                  scores (with_axes ax tr))
        as [[e He]|(lo & hi & Hlo & Hhi)].
      * right. right. left. exists e, s, scores, tt_times.
        rewrite He. auto.
      * right. right. right. exists s, scores, tt_times, lo, hi. auto.
    + right. left. exists e. reflexivity.
  - left. exists not_scored.
    apply (unscored_fails gat tr Hscores).
Qed.

Lemma observe_with_axes {X} (f : call -> option X) (ax : option nat)
    (tr : trace) :
  f (Subplots 1 1) = None -> omap f (with_axes ax tr) = omap f tr.
Proof.
  intros Hf. destruct ax; cbn [with_axes]; [reflexivity|].
  rewrite omap_app. cbn. rewrite Hf. apply app_nil_r.
Qed.

Lemma observe_curve {X} (f : call -> option X) (tt_times : list Q)
    (scores : ydata) (title : option string) (color : string) :
  f (Plot tt_times scores color "Classif. score") = None ->
  f (Axhline 0.5) = None -> (forall s, f (SetTitle s) = None) ->
  omap f (curve_calls tt_times scores title color) = [].
Proof.
  intros Hplot Hline Htitle. unfold curve_calls.
  destruct title as [s|]; cbn; rewrite Hplot, Hline, ?Htitle; reflexivity.
Qed.

Ltac no_new_call :=
  match goal with
  | H : plot_gat_diagonal _ _ _ _ _ _ _ _ _ _ _ _ _ = _ |- _ =>
      rewrite H; cbn [snd fst];
      rewrite ?omap_app, ?observe_with_axes, ?observe_curve by reflexivity;
      rewrite ?app_nil_r; reflexivity
  end.

(** X1: when [ymin] and [ymax] are not given, plot_gat_diagonal makes at
    most one [ax.set_ylim] call, and when it makes it, its two arguments
    are a least and a greatest entry of the data it handed to [ax.plot]
    (the rows of scores on the identity path, the array of lines 148-155
    otherwise). *)
Theorem diagonal_default_ylim (gat : GAT) (title : option string)
    (xmin xmax : option Q) (ax : option nat) (show : bool) (color : string)
    (xlabel ylabel legend : bool) (tr : trace) :
  omap ylim_of
    (plot_gat_diagonal gat title xmin xmax None None ax show color xlabel
       ylabel legend tr).2
  = omap ylim_of tr
  \/ exists y lo hi,
      plotted (plot_gat_diagonal gat title xmin xmax None None ax show
                 color xlabel ylabel legend tr).2
      = plotted tr ++ [y]
      /\ is_least lo (entries y) /\ is_greatest hi (entries y)
      /\ omap ylim_of
           (plot_gat_diagonal gat title xmin xmax None None ax show color
              xlabel ylabel legend tr).2
         = omap ylim_of tr ++ [[lo; hi]].
Proof.
  destruct (plot_gat_diagonal_cases gat title xmin xmax None None ax show
              color xlabel ylabel legend tr)
    as [[e He]|[[e He]|[(e & s & scores & tt_times & _ & _ & He)
                       |(s & scores & tt_times & lo & hi & Hscores & Hdata
                         & Hlo & Hhi)]]];
    [left; no_new_call | left; no_new_call | left; no_new_call |].
  right. exists scores, lo, hi.
  destruct Hlo as [Hlo|[_ Hlo]]; [discriminate|].
  destruct Hhi as [Hhi|[_ Hhi]]; [discriminate|].
  split; [|split; [apply np_min_y_ok, Hlo|split; [apply np_max_y_ok, Hhi|]]].
  - pose proof (plot_gat_diagonal_scored gat s title xmin xmax None None ax
                  show color xlabel ylabel legend tr Hscores) as Hrun.
    rewrite Hdata in Hrun. exact Hrun.
  - rewrite (plot_gat_diagonal_drawn gat s title xmin xmax None None ax show
               color xlabel ylabel legend tr scores tt_times lo hi Hscores
               Hdata (or_intror (conj eq_refl Hlo))
               (or_intror (conj eq_refl Hhi))).
    destruct ylabel; [destruct (scorer_ gat)|]; cbn [snd]; observe_calls.
Qed.

Lemma diagonal_default_ylim_witness :
  exists y lo hi,
    plotted (run (plot_gat_diagonal (example_gat 1) None None None None
                    None None true "b" true true true)).2
    = [y]
    /\ is_least lo (entries y) /\ is_greatest hi (entries y)
    /\ omap ylim_of
         (run (plot_gat_diagonal (example_gat 1) None None None None None
                 None true "b" true true true)).2
       = [[lo; hi]].
Proof.
  destruct (diagonal_default_ylim (example_gat 1) None None None None true
              "b" true true true [])
    as [Hnone|Hcall]; [discriminate Hnone | exact Hcall].
Defined.

(** X2: plot_gat_diagonal makes at most one [ax.set_xlim] call, and it
    makes it only when both [xmin] and [xmax] are given, with these two
    values; a single one of them is ignored. *)
Theorem diagonal_xlim_needs_both (gat : GAT) (title : option string)
    (xmin xmax ymin ymax : option Q) (ax : option nat) (show : bool)
    (color : string) (xlabel ylabel legend : bool) (tr : trace) :
  omap xlim_of
    (plot_gat_diagonal gat title xmin xmax ymin ymax ax show color xlabel
       ylabel legend tr).2
  = omap xlim_of tr
  \/ exists a b,
      xmin = Some a /\ xmax = Some b
      /\ omap xlim_of
           (plot_gat_diagonal gat title xmin xmax ymin ymax ax show color
              xlabel ylabel legend tr).2
         = omap xlim_of tr ++ [[a; b]].
Proof.
  destruct (plot_gat_diagonal_cases gat title xmin xmax ymin ymax ax show
              color xlabel ylabel legend tr)
    as [[e He]|[[e He]|[(e & s & scores & tt_times & _ & _ & He)
                       |(s & scores & tt_times & lo & hi & Hscores & Hdata
                         & Hlo & Hhi)]]];
    [left; no_new_call | left; no_new_call | left; no_new_call |].
  rewrite (plot_gat_diagonal_drawn gat s title xmin xmax ymin ymax ax show
             color xlabel ylabel legend tr scores tt_times lo hi Hscores
             Hdata Hlo Hhi).
  destruct xmin as [a|], xmax as [b|];
    [right; exists a, b; split; [reflexivity|split; [reflexivity|]]
    | left | left | left];
    (destruct ylabel; [destruct (scorer_ gat)|]); cbn [snd]; observe_calls.
Qed.

Lemma diagonal_xlim_needs_both_witness :
  omap xlim_of
    (run (plot_gat_diagonal (example_gat 1) None (Some 0%Q) None None None
            None true "b" true true true)).2
  = []
  /\ omap xlim_of
       (run (plot_gat_diagonal (example_gat 1) None (Some 0%Q) (Some 1%Q)
               None None None true "b" true true true)).2
     = [[0; 1]%Q].
Proof.
  split.
  - destruct (diagonal_xlim_needs_both (example_gat 1) None (Some 0%Q) None
                None None None true "b" true true true [])
      as [Hnone|(a & b & _ & Hmax & _)]; [exact Hnone | discriminate Hmax].
  - destruct (diagonal_xlim_needs_both (example_gat 1) None (Some 0%Q)
                (Some 1%Q) None None None true "b" true true true [])
      as [Hnone|(a & b & Ha & Hb & Hcall)]; [discriminate Hnone|].
    injection Ha as <-. injection Hb as <-. exact Hcall.
Defined.

(** X3: plot_gat_diagonal makes at most one [ax.set_ylabel] call, only with
    [ylabel] true and a scorer present, and the label it sets is
    "Classif. score (AUC)" when the scorer's repr has "roc" somewhere
    inside, and "Classif. score (%)" otherwise. *)
Theorem diagonal_ylabel_text (gat : GAT) (title : option string)
    (xmin xmax ymin ymax : option Q) (ax : option nat) (show : bool)
    (color : string) (xlabel ylabel legend : bool) (tr : trace) :
  omap ylabel_of
    (plot_gat_diagonal gat title xmin xmax ymin ymax ax show color xlabel
       ylabel legend tr).2
  = omap ylabel_of tr
  \/ exists scorer,
      ylabel = true /\ scorer_ gat = Some scorer
      /\ (((exists pre post, scorer = pre +:+ "roc" +:+ post)
           /\ omap ylabel_of
                (plot_gat_diagonal gat title xmin xmax ymin ymax ax show
                   color xlabel ylabel legend tr).2
              = omap ylabel_of tr ++ ["Classif. score (AUC)"])
          \/ (~ (exists pre post, scorer = pre +:+ "roc" +:+ post)
              /\ omap ylabel_of
                   (plot_gat_diagonal gat title xmin xmax ymin ymax ax show
                      color xlabel ylabel legend tr).2
                 = omap ylabel_of tr ++ ["Classif. score (%)"])).
Proof.
  destruct (plot_gat_diagonal_cases gat title xmin xmax ymin ymax ax show
              color xlabel ylabel legend tr)
    as [[e He]|[[e He]|[(e & s & scores & tt_times & _ & _ & He)
                       |(s & scores & tt_times & lo & hi & Hscores & Hdata
                         & Hlo & Hhi)]]];
    [left; no_new_call | left; no_new_call | left; no_new_call |].
  rewrite (plot_gat_diagonal_drawn gat s title xmin xmax ymin ymax ax show
             color xlabel ylabel legend tr scores tt_times lo hi Hscores
             Hdata Hlo Hhi).
  destruct ylabel; [|left; cbn [snd]; observe_calls].
  destruct (scorer_ gat) as [scorer|]; [|left; cbn [snd]; observe_calls].
  right. exists scorer. split; [reflexivity|]. split; [reflexivity|].
  cbn [snd].
  destruct (contains "roc" scorer) eqn:Hin.
  - left. split; [apply contains_substring, Hin | observe_calls].
  - right. split; [|observe_calls].
    intros Hsub. apply contains_substring in Hsub. congruence.
Qed.

Lemma diagonal_ylabel_text_witness :
  omap ylabel_of
    (run (plot_gat_diagonal auc_gat None None None None None None true "b"
            true true true)).2
  = ["Classif. score (AUC)"]
  /\ omap ylabel_of
       (run (plot_gat_diagonal (example_gat 1) None None None None None
               None true "b" true true true)).2
     = ["Classif. score (%)"].
Proof.
  split.
  - destruct (diagonal_ylabel_text auc_gat None None None None None None
                true "b" true true true [])
      as [Hnone|(scorer & _ & _ & [[_ Hauc]|[_ Hpercent]])];
      [discriminate Hnone | exact Hauc | discriminate Hpercent].
  - destruct (diagonal_ylabel_text (example_gat 1) None None None None None
                None true "b" true true true [])
      as [Hnone|(scorer & _ & _ & [[_ Hauc]|[_ Hpercent]])];
      [discriminate Hnone | discriminate Hauc | exact Hpercent].
Defined.

Lemma scan_tests_with_scorer (gat : GAT) (o : option string)
    (s : list (list Q)) (i : nat) (T : Q) (tn : list (list Q)) :
  forall scores,
    scan_tests (with_scorer gat o) s i T tn scores
    = scan_tests gat s i T tn scores.
Proof.
  induction tn as [|t tn IH]; intros scores; cbn [scan_tests];
    [reflexivity|].
  change (scan_one (with_scorer gat o) s i T t scores)
    with (scan_one gat s i T t scores).
  destruct (scan_one gat s i T t scores); cbn [rbind];
    [apply IH | reflexivity].
Qed.

Lemma scan_trains_with_scorer (gat : GAT) (o : option string)
    (s : list (list Q)) (tt : list Q) :
  forall i scores,
    scan_trains (with_scorer gat o) s i tt scores
    = scan_trains gat s i tt scores.
Proof.
  induction tt as [|T tt IH]; intros i scores; cbn [scan_trains];
    [reflexivity|].
  change (test_times_ (with_scorer gat o)) with (test_times_ gat).
  destruct (getattr "test_times_" (test_times_ gat)) as [tn_dict|];
    cbn [rbind]; [|reflexivity].
  destruct (getkey "times_" (times_ tn_dict)) as [tn|];
    cbn [rbind]; [|reflexivity].
  rewrite scan_tests_with_scorer.
  destruct (scan_tests gat s i T tn scores); cbn [rbind];
    [apply IH | reflexivity].
Qed.

Lemma diagonal_data_with_scorer (gat : GAT) (o : option string)
    (s : list (list Q)) :
  diagonal_data (with_scorer gat o) s = diagonal_data gat s.
Proof.
  unfold diagonal_data, diagonal_scores.
  change (test_times_ (with_scorer gat o)) with (test_times_ gat).
  change (train_times (with_scorer gat o)) with (train_times gat).
  destruct (getattr "test_times_" (test_times_ gat)) as [tn_dict|];
    cbn [rbind]; [|reflexivity].
  destruct (getkey "times_" (times_ tn_dict)) as [tn|];
    cbn [rbind]; [|reflexivity].
  destruct (is_diagonal tn); [reflexivity|].
  destruct (getattr "train_times" (train_times gat)) as [tt_dict|];
    cbn [rbind]; [|reflexivity].
  destruct (getkey "times_" (times_ tt_dict)) as [tt|];
    cbn [rbind]; [|reflexivity].
  rewrite scan_trains_with_scorer. reflexivity.
Qed.

(** X4: the scorer is read only for the y label.  With [ylabel] false the
    call does the same whatever the [scorer_] attribute is, present or not;
    with [ylabel] true and no [scorer_] attribute the call ends in an
    exception and has called neither [ax.legend] nor [plt.show]. *)
Theorem diagonal_scorer_only_for_label (gat : GAT) (title : option string)
    (xmin xmax ymin ymax : option Q) (ax : option nat) (show : bool)
    (color : string) (xlabel legend : bool) (tr : trace) :
  (forall scorer,
      plot_gat_diagonal (with_scorer gat scorer) title xmin xmax ymin ymax
        ax show color xlabel false legend tr
      = plot_gat_diagonal gat title xmin xmax ymin ymax ax show color xlabel
          false legend tr)
  /\ (scorer_ gat = None ->
      (exists e,
          (plot_gat_diagonal gat title xmin xmax ymin ymax ax show color
             xlabel true legend tr).1
          = Raise e)
      /\ omap closing_of
           (plot_gat_diagonal gat title xmin xmax ymin ymax ax show color
              xlabel true legend tr).2
         = omap closing_of tr).
Proof.
  split.
  - intros scorer. destruct (scores_ gat) as [s|] eqn:Hscores.
    + rewrite (plot_gat_diagonal_split (with_scorer gat scorer) s)
        by exact Hscores.
      rewrite (plot_gat_diagonal_split gat s) by exact Hscores.
      rewrite diagonal_data_with_scorer.
      destruct (diagonal_data gat s) as [[scores tt_times]|e]; reflexivity.
    + unfold plot_gat_diagonal.
      change (scores_ (with_scorer gat scorer)) with (scores_ gat).
      rewrite Hscores. reflexivity.
  - intros Hnone.
    destruct (plot_gat_diagonal_cases gat title xmin xmax ymin ymax ax show
                color xlabel true legend tr)
      as [[e He]|[[e He]|[(e & s & scores & tt_times & _ & _ & He)
                         |(s & scores & tt_times & lo & hi & Hscores & Hdata
                           & Hlo & Hhi)]]];
      [split; [exists e; rewrite He; reflexivity | no_new_call] ..|].
    rewrite (plot_gat_diagonal_drawn gat s title xmin xmax ymin ymax ax show
               color xlabel true legend tr scores tt_times lo hi Hscores
               Hdata Hlo Hhi).
    rewrite Hnone. split; [eexists; reflexivity|].
    cbn [snd]. observe_calls.
Qed.

Lemma diagonal_scorer_only_for_label_witness :
  (exists e,
      (run (plot_gat_diagonal scorerless_gat None None None None None None
              true "b" true true true)).1
      = Raise e)
  /\ omap closing_of
       (run (plot_gat_diagonal scorerless_gat None None None None None None
               true "b" true true true)).2
     = [].
Proof.
  apply (proj2 (diagonal_scorer_only_for_label scorerless_gat None None None
                  None None None true "b" true true []) eq_refl).
Defined.

Lemma concat_nil_rectangular (s : list (list Q)) :
  concat s = [] -> rectangular s = true.
Proof.
  intros Hempty.
  assert (Hrows : Forall (fun r => r = []) s).
  { induction s as [|r s IH]; [constructor|].
    cbn in Hempty. apply app_eq_nil in Hempty as [-> Hrest].
    constructor; [reflexivity | apply IH, Hrest]. }
  destruct s as [|r s]; [reflexivity|].
  apply Forall_cons in Hrows as [-> Hrest]. cbn.
  apply forallb_forall. intros r' Hin.
  rewrite Forall_forall in Hrest.
  rewrite (Hrest r' (proj2 (list_elem_of_In _ _) Hin)). reflexivity.
Qed.

(** X5: on the identity path with scores that hold no number (no rows, or
    empty rows) and [ymin] not given, a call of plot_gat_diagonal ends in
    an exception: it has handed the scores to [ax.plot], and it has called
    neither [ax.set_ylim] nor [ax.legend] nor [plt.show]. *)
Theorem diagonal_identity_empty_scores (gat : GAT) (s : list (list Q))
    (tn_dict : times_dict (list (list Q))) (tn_times : list (list Q))
    (tt_dict : times_dict (list Q)) (tt_times : list Q)
    (Hscores : scores_ gat = Some s)
    (Hempty : concat s = [])
    (Htest : test_times_ gat = Some tn_dict)
    (Htest_times : times_ tn_dict = Some tn_times)
    (Hone : Forall (fun t => length t = 1%nat) tn_times)
    (Htrain : train_times gat = Some tt_dict)
    (Htrain_times : times_ tt_dict = Some tt_times) :
  forall title xmin xmax ymax ax show color xlabel ylabel legend tr,
    (exists e,
        (plot_gat_diagonal gat title xmin xmax None ymax ax show color
           xlabel ylabel legend tr).1
        = Raise e)
    /\ plotted (plot_gat_diagonal gat title xmin xmax None ymax ax show
                  color xlabel ylabel legend tr).2
       = plotted tr ++ [YMatrix s]
    /\ omap ylim_of
         (plot_gat_diagonal gat title xmin xmax None ymax ax show color
            xlabel ylabel legend tr).2
       = omap ylim_of tr
    /\ omap closing_of
         (plot_gat_diagonal gat title xmin xmax None ymax ax show color
            xlabel ylabel legend tr).2
       = omap closing_of tr.
Proof.
  intros.
  assert (Hrun : plot_gat_diagonal gat title xmin xmax None ymax ax show
                   color xlabel ylabel legend tr
                 = (Raise zero_size,
                    with_axes ax tr
                    ++ curve_calls tt_times (YMatrix s) title color)).
  { rewrite (plot_gat_diagonal_split gat s) by exact Hscores.
    rewrite (diagonal_data_identity gat s tn_dict tn_times tt_dict tt_times)
      by assumption.
    apply diagonal_finish_no_min. cbn [np_min_y].
    apply np_min2_empty; [apply concat_nil_rectangular|]; assumption. }
  split; [exists zero_size; rewrite Hrun; reflexivity|].
  split; [|split; no_new_call].
  pose proof (plot_gat_diagonal_scored gat s title xmin xmax None ymax ax
                show color xlabel ylabel legend tr Hscores) as Hplot.
  rewrite (diagonal_data_identity gat s tn_dict tn_times tt_dict tt_times)
    in Hplot by assumption.
  exact Hplot.
Qed.

Lemma diagonal_identity_empty_scores_witness :
  (exists e,
      (run (plot_gat_diagonal empty_gat None None None None None None true
              "b" true true true)).1
      = Raise e)
  /\ plotted (run (plot_gat_diagonal empty_gat None None None None None
                     None true "b" true true true)).2
     = [YMatrix []]
  /\ omap ylim_of
       (run (plot_gat_diagonal empty_gat None None None None None None
               true "b" true true true)).2
     = []
  /\ omap closing_of
       (run (plot_gat_diagonal empty_gat None None None None None None
               true "b" true true true)).2
     = [].
Proof.
  apply (diagonal_identity_empty_scores empty_gat []
           (TimesDict (Some []) None) [] (TimesDict (Some []) (Some 1%Q)) []
           eq_refl eq_refl eq_refl eq_refl ltac:(constructor) eq_refl
           eq_refl
           None None None None None true "b" true true true []).
Defined.



(** ** The array built by lines 148-155 *)

(** X11: when no testing-time sequence is empty or longer than a score row
    and there are no more training times than score rows, lines 148-155
    build an array with one entry per score row, whatever the number of
    training times, and its entries for the rows beyond the last training
    time are 0. *)
Theorem diagonal_one_entry_per_row (gat : GAT) (s : list (list Q))
    (tt_dict : times_dict (list Q)) (tt_times : list Q) (st : Q)
    (tn_dict : times_dict (list (list Q))) (tn_times : list (list Q))
    (Htrain : train_times gat = Some tt_dict)
    (Htrain_times : times_ tt_dict = Some tt_times)
    (Hstep : step tt_dict = Some st)
    (Htest : test_times_ gat = Some tn_dict)
    (Htest_times : times_ tn_dict = Some tn_times)
    (Hrows : (length tt_times <= length s)%nat)
    (Hread : Forall (readable s) tn_times) :
  exists v,
    diagonal_scores gat s = Ok v
    /\ length v = length s
    /\ forall k, (length tt_times <= k < length s)%nat -> v !! k = Some 0%Q.
Proof.
  destruct (diagonal_scores_eval gat s tt_dict st tn_dict tn_times
              Htrain Hstep Htest Htest_times tt_times Htrain_times Hrows
              Hread)
    as (v & Hv & Hlen & _).
  exists v. split; [exact Hv|]. split; [exact Hlen|].
  intros k [Hlow Hhigh].
  assert (Hscan : scan_trains gat s 0 tt_times (np_zeros (length s)) = Ok v).
  { unfold diagonal_scores in Hv. rewrite Htrain in Hv.
    cbn [getattr rbind] in Hv. rewrite Htrain_times in Hv. exact Hv. }
  rewrite (scan_trains_beyond gat s tt_dict st tn_dict tn_times tt_times
             Htrain Hstep Htest Htest_times Hread 0%nat
             (np_zeros (length s)) v (length_replicate _ _)
             ltac:(lia) Hscan k ltac:(lia)).
  apply lookup_replicate_2, Hhigh.
Qed.

Lemma diagonal_one_entry_per_row_witness :
  exists v,
    diagonal_scores tall_gat [[0.6; 0.7]; [0.5; 0.9]; [0.8; 0.4]]%Q = Ok v
    /\ length v = 3%nat
    /\ forall k, (2 <= k < 3)%nat -> v !! k = Some 0%Q.
Proof.
  apply (diagonal_one_entry_per_row tall_gat
           [[0.6; 0.7]; [0.5; 0.9]; [0.8; 0.4]]%Q
           (TimesDict (Some [0; 1]%Q) (Some 1%Q)) [0; 1]%Q 1%Q
           (TimesDict (Some [[0; 1]; [0; 1]]%Q) None) [[0; 1]; [0; 1]]%Q
           eq_refl eq_refl eq_refl eq_refl eq_refl).
  - cbn. lia.
  - repeat constructor; cbn; try lia; discriminate.
Defined.

(** X12: on whole-number times, with every read in range, if all testing
    times lie more than one step before the training time [T]
    ([t + step < T]), the entry built for [T] and handed to [ax.plot] is
    the initial 0. *)
Theorem diagonal_zero_before (gat : GAT) (s : list (list Q))
    (tt_dict : times_dict (list Q)) (tt_times : list Q) (st : Q)
    (tn_dict : times_dict (list (list Q))) (tn_times : list (list Q))
    (i : nat) (T : Q)
    (Hscores : scores_ gat = Some s)
    (Htrain : train_times gat = Some tt_dict)
    (Htrain_times : times_ tt_dict = Some tt_times)
    (Hstep : step tt_dict = Some st)
    (Htest : test_times_ gat = Some tn_dict)
    (Htest_times : times_ tn_dict = Some tn_times)
    (Hwhole_train : Forall whole tt_times)
    (Hwhole_test : Forall (Forall whole) tn_times)
    (Hragged : is_diagonal tn_times = false)
    (Hrows : (length tt_times <= length s)%nat)
    (Hread : Forall (readable s) tn_times)
    (HT : tt_times !! i = Some T)
    (Hbefore : Forall (Forall (fun x => (x + st < T)%Q)) tn_times) :
  exists v,
    diagonal_scores gat s = Ok v
    /\ v !! i = Some 0%Q
    /\ forall title xmin xmax ymin ymax ax show color xlabel ylabel legend tr,
        plotted (plot_gat_diagonal gat title xmin xmax ymin ymax ax show
                   color xlabel ylabel legend tr).2
        = plotted tr ++ [YVector v].
Proof.
  destruct (diagonal_scores_eval gat s tt_dict st tn_dict tn_times
              Htrain Hstep Htest Htest_times tt_times Htrain_times Hrows
              Hread)
    as (v & Hv & Hlen & Hat).
  exists v. split; [exact Hv|]. split.
  - destruct (lookup_lt_is_Some_2 s i) as [row Hrow].
    { apply lookup_lt_Some in HT. lia. }
    rewrite (Hat i T row HT Hrow). f_equal.
    apply cell_unchanged.
    rewrite Forall_forall in Hbefore, Hread. apply Forall_forall.
    intros u Hu. destruct (Hread u Hu) as [Hne _].
    destruct (nearest_closest u T Hne) as (tj & Htj & _).
    rewrite (nth_lookup_Some _ _ _ _ Htj).
    specialize (Hbefore u Hu). rewrite Forall_forall in Hbefore.
    specialize (Hbefore tj (list_elem_of_lookup_2 _ _ _ Htj)).
    unfold accepted. destruct (Qle_bool (T - tj) st) eqn:Hacc; [|reflexivity].
    exfalso. apply Qle_bool_iff in Hacc.
    apply (Qlt_not_le _ _ Hbefore).
    apply (Qplus_le_l _ _ (- tj)).
    assert (Hcancel : (tj + st + - tj == st)%Q) by ring.
    rewrite Hcancel. exact Hacc.
  - intros.
    pose proof (plot_gat_diagonal_scored gat s title xmin xmax ymin ymax ax
                  show color xlabel ylabel legend tr Hscores) as Hrun.
    rewrite (diagonal_data_ragged gat s tn_dict tn_times tt_dict tt_times
               (Ok v)) in Hrun by assumption.
    exact Hrun.
Qed.

Lemma diagonal_zero_before_witness :
  exists v,
    diagonal_scores early_gat example_scores = Ok v
    /\ v !! 0%nat = Some 0%Q
    /\ forall title xmin xmax ymin ymax ax show color xlabel ylabel legend tr,
        plotted (plot_gat_diagonal early_gat title xmin xmax ymin ymax ax
                   show color xlabel ylabel legend tr).2
        = plotted tr ++ [YVector v].
Proof.
  apply (diagonal_zero_before early_gat example_scores
           (TimesDict (Some [5; 6]%Q) (Some 1%Q)) [5; 6]%Q 1%Q
           (TimesDict (Some [[0; 1]; [0; 1]]%Q) None) [[0; 1]; [0; 1]]%Q
           0%nat 5%Q
           eq_refl eq_refl eq_refl eq_refl eq_refl eq_refl).
  - repeat constructor; cbn; lia.
  - repeat constructor; cbn; lia.
  - reflexivity.
  - cbn. lia.
  - repeat constructor; cbn; try lia; discriminate.
  - reflexivity.
  - repeat constructor.
Defined.

(** X15: on whole-number times, with more training times than score rows
    and every other read in range, the nearest-neighbour branch stops with
    IndexError as soon as a testing-time sequence is accepted for the first
    training time that has no score row. *)
Theorem diagonal_more_times_than_rows (gat : GAT) (s : list (list Q))
    (tt_dict : times_dict (list Q)) (tt_times : list Q) (st : Q)
    (tn_dict : times_dict (list (list Q))) (tn_times : list (list Q))
    (T : Q)
    (Hscores : scores_ gat = Some s)
    (Htrain : train_times gat = Some tt_dict)
    (Htrain_times : times_ tt_dict = Some tt_times)
    (Hstep : step tt_dict = Some st)
    (Htest : test_times_ gat = Some tn_dict)
    (Htest_times : times_ tn_dict = Some tn_times)
    (Hwhole_train : Forall whole tt_times)
    (Hwhole_test : Forall (Forall whole) tn_times)
    (Hragged : is_diagonal tn_times = false)
    (Hread : Forall (readable s) tn_times)
    (HT : tt_times !! length s = Some T)
    (Hacc : Exists (fun u => accepted T (nth (nearest u T) u 0%Q) st = true)
              tn_times) :
  diagonal_scores gat s = Raise IndexError
  /\ forall title xmin xmax ymin ymax ax show color xlabel ylabel legend tr,
      plot_gat_diagonal gat title xmin xmax ymin ymax ax show color
        xlabel ylabel legend tr
      = (Raise IndexError, with_axes ax tr).
Proof.
  assert (Hraise : diagonal_scores gat s = Raise IndexError).
  { unfold diagonal_scores. rewrite Htrain. cbn [getattr rbind].
    rewrite Htrain_times. cbn [getkey rbind].
    rewrite <- (take_drop_middle tt_times (length s) T HT).
    rewrite scan_trains_app.
    assert (Htake : length (take (length s) tt_times) = length s).
    { rewrite length_take. apply lookup_lt_Some in HT. lia. }
    destruct (scan_trains_eval gat s tt_dict st tn_dict tn_times Htrain
                Hstep Htest Htest_times (take (length s) tt_times) Hread
                0%nat (np_zeros (length s)) (length_replicate _ _)
                ltac:(lia))
      as (v & Hv & _).
    rewrite Hv. cbn [rbind scan_trains].
    rewrite Htest. cbn [getattr rbind]. rewrite Htest_times.
    cbn [getkey rbind]. rewrite Htake. cbn [Nat.add].
    rewrite (scan_tests_no_row gat s tt_dict st (length s) T tn_times
               Htrain Hstep).
    - reflexivity.
    - apply lookup_ge_None. lia.
    - eapply Forall_impl; [exact Hread|]. intros u [Hu _]. exact Hu.
    - exact Hacc. }
  split; [exact Hraise|].
  apply (plot_gat_diagonal_raises gat s tn_dict tn_times tt_dict tt_times);
    assumption.
Qed.

Lemma diagonal_more_times_than_rows_witness :
  run (plot_gat_diagonal short_gat None None None None None None true "b"
         true true true)
  = (Raise IndexError, [Subplots 1 1]).
Proof.
  apply (diagonal_more_times_than_rows short_gat example_scores
           (TimesDict (Some [0; 1; 2]%Q) (Some 1%Q)) [0; 1; 2]%Q 1%Q
           (TimesDict (Some [[0; 1]; [0; 1]]%Q) None) [[0; 1]; [0; 1]]%Q
           2%Q eq_refl eq_refl eq_refl eq_refl eq_refl eq_refl).
  - repeat constructor; cbn; lia.
  - repeat constructor; cbn; lia.
  - reflexivity.
  - repeat constructor; cbn; try lia; discriminate.
  - reflexivity.
  - left. reflexivity.
Defined.

(** ** Reads of the scores outside a row *)


